(** * The WebAssembly JS API declaration file [index.d.ts]

    The repository is one TypeScript ambient declaration file.  It has no
    executable code: what it "does" is declare shapes.  The development
    therefore embeds the file as the declarations it makes (the syntax
    tree of the two [declare namespace WebAssembly] blocks, doc comments
    included), relates that tree to the text of the file through an
    executable lexer and parser, and states the properties of the declared
    shapes over it. *)

From Stdlib Require Import String Ascii List Bool Arith NArith Lia PrimFloat.

Set Warnings "-register-all".
Import ListNotations.
Open Scope string_scope.

(** ** Tokens of the declaration language *)

Inductive Token : Type :=
| TkWord (s : string)          (* identifier or keyword *)
| TkSym (c : ascii)            (* one-character punctuation *)
| TkArrow                      (* => *)
| TkStr (s : string)           (* string literal, without its quotes *)
| TkDoc (lines : list string). (* a doc comment, one entry per text line *)

(** Unparsed code: what a function body, an initializer or a statement
    would be kept as. *)
Definition Code : Type := list Token.

(** A doc comment, as its lines of text (comment frame removed).  [[]] is
    "no doc comment". *)
Definition Doc : Type := list string.

(** ** Types *)

Inductive TsType : Type :=
| TAny
| TNumber
| TString
| TBoolean
| TVoid
| TNull
| TLiteral (s : string)                          (* "anyfunc" *)
| TRef (name : string) (args : list TsType)      (* Module, Promise<Module> *)
| TArray (elem : TsType)                         (* ArrayBuffer[] *)
| TUnion (alts : list TsType)                    (* A | B *)
| TFunction (params : list Param) (ret : TsType) (* (args: any[]) => any *)
with Param : Type :=
| mkParam (p_name : string) (p_optional : bool) (p_type : TsType).

Definition p_name (p : Param) : string := let 'mkParam n _ _ := p in n.
Definition p_optional (p : Param) : bool := let 'mkParam _ o _ := p in o.
Definition p_type (p : Param) : TsType := let 'mkParam _ _ t := p in t.

(** [name: T] and [name?: T] *)
Definition req (n : string) (t : TsType) : Param := mkParam n false t.
Definition opt (n : string) (t : TsType) : Param := mkParam n true t.

(** A reference to a type by name, without type arguments. *)
Definition TName (n : string) : TsType := TRef n [].
Definition TPromise (t : TsType) : TsType := TRef "Promise" [t].

(** ** Declarations *)

Inductive Member : Type :=
| MProperty (doc : Doc) (readonly : bool) (name : string) (optional : bool)
            (type : TsType) (init : option Code)
| MConstructor (doc : Doc) (params : list Param) (body : option Code)
| MMethod (doc : Doc) (static : bool) (name : string) (params : list Param)
          (ret : TsType) (body : option Code).

Inductive Decl : Type :=
| DInterface (doc : Doc) (name : string) (extends : list string)
             (members : list Member)
| DClass (doc : Doc) (name : string) (extends : option string)
         (members : list Member)
| DTypeAlias (doc : Doc) (name : string) (body : TsType)
| DFunction (doc : Doc) (name : string) (params : list Param) (ret : TsType)
            (body : option Code)
| DStatement (code : Code).

Record Namespace : Type := mkNamespace {
  ns_doc : Doc;
  ns_ambient : bool;           (* written with [declare] *)
  ns_name : string;
  ns_decls : list Decl
}.

Inductive TopItem : Type :=
| TopNamespace (ns : Namespace)
| TopStatement (code : Code).

Definition SourceFile : Type := list TopItem.

(** ** The file *)

(** The double quote character, for the doc comments that quote strings. *)
Definition dq : string := String (ascii_of_nat 34) EmptyString.

Definition BufferSource : TsType := TName "BufferSource".
Definition ArrayBuffer : TsType := TName "ArrayBuffer".
Definition Uint8Array : TsType := TName "Uint8Array".
Definition Response : TsType := TName "Response".

Definition import_object_doc (what : string) : string :=
  "@param importObject " ++ what ++ ". E.g. `{imports: {imported_func}}` for `(import "
  ++ dq ++ "imports" ++ dq ++ " " ++ dq ++ "imported_func" ++ dq ++ ")`.".

Definition namespace_doc : Doc :=
  [ "The WebAssembly namespace, see [WebAssembly](https://github.com/webassembly)";
    "and [WebAssembly JS API](http://webassembly.org/getting-started/js-api/)";
    "for more information." ].

(** Lines 11-219. *)
Definition first_copy : Namespace :=
  mkNamespace namespace_doc true "WebAssembly"
  [ DInterface [] "ModuleExport" []
      [ MProperty
          [ "The external name assigned to the value,";
            "e.g. `" ++ dq ++ "exported_func" ++ dq ++ "` or `" ++ dq
              ++ "imported_func" ++ dq ++ "`" ]
          false "name" false TString None;
        MProperty
          [ "The type of value, e.g `" ++ dq ++ "global" ++ dq ++ "` or `"
              ++ dq ++ "function" ++ dq ++ "`" ]
          false "kind" false TString None ];
    DInterface [] "ModuleImport" ["ModuleExport"]
      [ MProperty
          [ "The name of the module whose export is being imported";
            "(the first string in an `import` expression).";
            "E.g. `" ++ dq ++ "imports" ++ dq ++ "`." ]
          false "module" false TString None ];
    DClass
      [ "An uninstantiated WebAssembly module";
        "compiled from its WebAssembly binary code representation" ]
      "Module" None
      [ MConstructor
          [ "Synchronously compiles a WebAssembly module from";
            "an `ArrayBuffer`, `Uint8Array`, or other `TypedArray`";
            "@param bufferSource The binary data representing the module" ]
          [ req "bufferSource" BufferSource ] None;
        MMethod
          [ "Gets `ArrayBuffer` copies of all custom sections with a certain name";
            "@param module The module whose sections to search";
            "@param sectionName The name to match to custom sections" ]
          true "customSections"
          [ req "module" (TName "Module"); req "sectionName" TString ]
          (TArray ArrayBuffer) None;
        MMethod
          [ "Gets a list of items specified to be exported.";
            "Note that their values are not exported,";
            "since a `Module` is uninstantiated.";
            "@param module The module whose exports to list" ]
          true "exports" [ req "module" (TName "Module") ]
          (TArray (TName "ModuleExport")) None;
        MMethod
          [ "Gets a list of items specified to be imported.";
            "Note that their values are not imported,";
            "since a `Module` is uninstantiated.";
            "@param module The module whose imports to list" ]
          true "imports" [ req "module" (TName "Module") ]
          (TArray (TName "ModuleImport")) None ];
    DClass
      [ "An instantiated WebAssembly Module.";
        "The instance has a memory state";
        "and its exported functions can be executed." ]
      "Instance" None
      [ MProperty
          [ "The values exported by the module.";
            "An object mapping export name strings to values." ]
          true "exports" false TAny None;
        MConstructor
          [ "Instantiates a `Module` with optional imported values";
            "@param module The WebAssembly module to instantiate";
            import_object_doc "The values to import" ]
          [ req "module" (TName "Module"); opt "importObject" TAny ] None ];
    DInterface [] "MemoryDescriptor" []
      [ MProperty [ "The number of 64KiB pages to allocate initially" ]
          false "initial" false TNumber None;
        MProperty
          [ "The (optional) maximum number of 64KiB pages";
            "to allow the memory to grow to.";
            "If omitted, memory is bounded only by resource limitations." ]
          false "maximum" true TNumber None ];
    DClass
      [ "A growable `ArrayBuffer` which can be imported or exported";
        "by a WebAssembly instance.";
        "The memory's size is in units of 64KiB (65,536 or `2 ** 16` bytes) pages." ]
      "Memory" None
      [ MProperty
          [ "The bytes allocated by the memory.";
            "Note that the value of `buffer` changes when the memory is grown." ]
          true "buffer" false ArrayBuffer None;
        MConstructor
          [ "Allocates memory for a WebAssembly module";
            "@param memoryDescriptor The initial and maximum sizes of the memory" ]
          [ req "memoryDescriptor" (TName "MemoryDescriptor") ] None;
        MMethod
          [ "Increases the allocated memory";
            "@param numPages The (nonnegative) number of pages to add";
            "@returns The previous number of allocated pages" ]
          false "grow" [ req "numPages" TNumber ] TNumber None ];
    DInterface [] "TableDescriptor" ["MemoryDescriptor"]
      [ MProperty
          [ "The type of elements stored in the table.";
            "Currently, only `" ++ dq ++ "anyfunc" ++ dq ++ "` is allowed." ]
          false "element" false (TLiteral "anyfunc") None ];
    DTypeAlias
      [ "An element in a `Table`.";
        "`null` if unset.";
        "Non-`null` values must be functions exported by an `Instance`." ]
      "AnyFunc"
      (TUnion [ TFunction [ req "args" (TArray TAny) ] TAny; TNull ]);
    DClass
      [ "A 0-indexed list of WebAssembly functions.";
        "Resizable, like `Memory`, except in units of elements." ]
      "Table" None
      [ MProperty
          [ "The number of elements in the table.";
            "Valid indices are `0` to `length - 1`." ]
          true "length" false TNumber None;
        MConstructor
          [ "Allocates a table of the specified size.";
            "All elements are initially `null`.";
            "@param tableDescriptor The initial and maximum sizes of the table" ]
          [ req "tableDescriptor" (TName "TableDescriptor") ] None;
        MMethod
          [ "Gets the element at the specified index in the table";
            "@param index The 0-indexed index" ]
          false "get" [ req "index" TNumber ] (TName "AnyFunc") None;
        MMethod
          [ "Increases the table length";
            "@param numElements The (nonnegative) number of elements to add";
            "@returns The previous table length" ]
          false "grow" [ req "numElements" TNumber ] TNumber None;
        MMethod
          [ "Sets the element at the specified index in the table";
            "@param index The 0-indexed index";
            "@param value The value to set" ]
          false "set" [ req "index" TNumber; req "value" (TName "AnyFunc") ]
          TVoid None ];
    DClass
      [ "An `Error` thrown when binary data cannot be compiled into a `Module`" ]
      "CompileError" (Some "Error") [];
    DClass
      [ "An `Error` thrown when instantiating an `Instance` and imports are missing" ]
      "LinkError" (Some "Error") [];
    DClass
      [ "An `Error` thrown when WebAssembly code attempts an invalid operation" ]
      "RuntimeError" (Some "Error") [];
    DFunction [ "Asynchronously compiles binary code into a `Module`" ]
      "compile" [ req "bufferSource" BufferSource ]
      (TPromise (TName "Module")) None;
    DFunction
      [ "Asynchronously compiles a source of binary code, e.g. a `fetch`,";
        "into a `Module`. Use instead of `compile` when possible." ]
      "compileStreaming"
      [ req "source" (TUnion [ Response; TPromise Response ]) ]
      (TPromise (TName "Module")) None;
    DInterface [] "ResultObject" []
      [ MProperty [ "A WebAssembly module" ]
          false "module" false (TName "Module") None;
        MProperty [ "An instance of `module`" ]
          false "instance" false (TName "Instance") None ];
    DFunction
      [ "Asynchronously compiles binary code into a `Module`";
        "and creates an `Instance` of it";
        "@param bufferSource The binary data to compile";
        import_object_doc "Optional values to import into the instance" ]
      "instantiate"
      [ req "bufferSource" BufferSource; opt "importObject" TAny ]
      (TPromise (TName "ResultObject")) None;
    DFunction
      [ "Asynchronously creates an `Instance` of an existing `Module`";
        "@param module The module to instantiate";
        import_object_doc "Optional values to import into the instance" ]
      "instantiate"
      [ req "module" (TName "Module"); opt "importObject" TAny ]
      (TPromise (TName "Instance")) None;
    DFunction
      [ "Asynchronously compiles a source of binary code, e.g. a `fetch`,";
        "into a `Module` and an instantiated `Instance`.";
        "Use instead of `instantiate` when possible." ]
      "instantiateStreaming"
      [ req "source" (TUnion [ Response; TPromise Response ]);
        opt "importObject" TAny ]
      (TPromise (TName "ResultObject")) None;
    DFunction
      [ "Checks whether binary code specifies a valid WebAssembly module";
        "@returns Whether compiling the module would throw a `CompileError`" ]
      "validate" [ req "bufferSource" BufferSource ] TBoolean None ].

(** Lines 231-311. *)
Definition second_copy : Namespace :=
  mkNamespace namespace_doc true "WebAssembly"
  [ DInterface [] "ModuleExport" []
      [ MProperty [] false "name" false TString None;
        MProperty [] false "kind" false TString None ];
    DInterface [] "ModuleImport" ["ModuleExport"]
      [ MProperty [] false "module" false TString None ];
    DClass [ "WebAssembly.Module" ] "Module" None
      [ MConstructor []
          [ req "bufferSource" (TUnion [ ArrayBuffer; Uint8Array ]) ] None;
        MMethod [] true "customSections"
          [ req "module" (TName "Module"); req "sectionName" TString ]
          (TArray ArrayBuffer) None;
        MMethod [] true "exports" [ req "module" (TName "Module") ]
          (TArray (TName "ModuleExport")) None;
        MMethod [] true "imports" [ req "module" (TName "Module") ]
          (TArray (TName "ModuleImport")) None ];
    DClass [ "WebAssembly.Instance" ] "Instance" None
      [ MProperty [] true "exports" false TAny None;
        MConstructor []
          [ req "module" (TName "Module"); opt "importObject" TAny ] None ];
    DInterface
      [ "WebAssembly.Memory";
        "Note: A WebAssembly page has a constant size of 65,536 bytes, i.e., 64KiB." ]
      "MemoryDescriptor" []
      [ MProperty [] false "initial" false TNumber None;
        MProperty [] false "maximum" true TNumber None ];
    DClass [] "Memory" None
      [ MProperty [] true "buffer" false ArrayBuffer None;
        MConstructor []
          [ req "memoryDescriptor" (TName "MemoryDescriptor") ] None;
        MMethod [] false "grow" [ req "numPages" TNumber ] TNumber None ];
    DInterface [ "WebAssembly.Table" ] "TableDescriptor" ["MemoryDescriptor"]
      [ MProperty [] false "element" false (TLiteral "anyfunc") None ];
    DTypeAlias [] "AnyFunc" (TFunction [ req "args" (TArray TAny) ] TAny);
    DClass [] "Table" None
      [ MProperty [] true "length" false TNumber None;
        MConstructor []
          [ req "tableDescriptor" (TName "TableDescriptor") ] None;
        MMethod [] false "get" [ req "index" TNumber ] (TName "AnyFunc") None;
        MMethod [] false "grow" [ req "numElements" TNumber ] TNumber None;
        MMethod [] false "set"
          [ req "index" TNumber; req "value" (TName "AnyFunc") ] TVoid None ];
    DClass [ "Errors" ] "CompileError" (Some "Error") [];
    DClass [] "LinkError" (Some "Error") [];
    DClass [] "RuntimeError" (Some "Error") [];
    DFunction [] "compile"
      [ req "bufferSource" (TUnion [ ArrayBuffer; Uint8Array ]) ]
      (TPromise (TName "Module")) None;
    DInterface [] "ResultObject" []
      [ MProperty [] false "module" false (TName "Module") None;
        MProperty [] false "instance" false (TName "Instance") None ];
    DFunction [] "instantiate"
      [ req "bufferSource" (TUnion [ ArrayBuffer; Uint8Array ]);
        opt "importObject" TAny ]
      (TPromise (TName "ResultObject")) None;
    DFunction [] "instantiate"
      [ req "module" (TName "Module"); opt "importObject" TAny ]
      (TPromise (TName "Instance")) None;
    DFunction [] "validate"
      [ req "bufferSource" (TUnion [ ArrayBuffer; Uint8Array ]) ]
      TBoolean None ].

(** The whole of [index.d.ts]: the namespace, declared twice. *)
Definition index_d_ts : SourceFile :=
  [ TopNamespace first_copy; TopNamespace second_copy ].

(** * From text to declarations

    The lexer and the parser below read the declaration language the file
    is written in.  They keep what a declaration file must not have (a
    function body, an initializer, a statement) as [Code], so that its
    absence from [index.d.ts] is a fact about the text and not about the
    syntax tree's type. *)

(** ** Characters and strings *)

Definition newline : ascii := ascii_of_nat 10.
Definition double_quote : ascii := ascii_of_nat 34.
Definition single_quote : ascii := ascii_of_nat 39.

Definition is_space (c : ascii) : bool :=
  let n := nat_of_ascii c in
  ((n =? 32) || (n =? 9) || (n =? 10) || (n =? 13))%nat.

Definition is_word_char (c : ascii) : bool :=
  let n := nat_of_ascii c in
  (((48 <=? n) && (n <=? 57)) || ((65 <=? n) && (n <=? 90))
   || ((97 <=? n) && (n <=? 122)) || (n =? 95) || (n =? 36))%nat.

Fixpoint string_rev_append (s acc : string) : string :=
  match s with
  | EmptyString => acc
  | String c s' => string_rev_append s' (String c acc)
  end.

Definition string_rev (s : string) : string := string_rev_append s "".

Fixpoint drop_spaces (s : string) : string :=
  match s with
  | EmptyString => EmptyString
  | String c s' => if is_space c then drop_spaces s' else s
  end.

Definition trim (s : string) : string :=
  string_rev (drop_spaces (string_rev (drop_spaces s))).

(** [split_lines s cur]: the lines of [s]; [cur] is the current line so far,
    reversed. *)
Fixpoint split_lines (s cur : string) : list string :=
  match s with
  | EmptyString => [string_rev cur]
  | String c s' =>
      if Ascii.eqb c newline then string_rev cur :: split_lines s' ""
      else split_lines s' (String c cur)
  end.

Definition strip_star (s : string) : string :=
  match s with
  | String c s' => if Ascii.eqb c "*" then s' else s
  | EmptyString => s
  end.

Definition doc_line (l : string) : string :=
  trim (strip_star (drop_spaces l)).

Fixpoint drop_empty (ls : list string) : list string :=
  match ls with
  | l :: ls' => if String.eqb l "" then drop_empty ls' else ls
  | [] => []
  end.

(** The text lines of a doc comment, from what stands between its opening
    slash-star and its closing star-slash. *)
Definition doc_lines (content : string) : Doc :=
  rev (drop_empty (rev (drop_empty (map doc_line (split_lines content ""))))).

(** ** Lexer *)

Inductive LexState : Type :=
| LsCode
| LsWord (acc : string)                           (* reversed *)
| LsStr (quote : ascii) (acc : string)            (* reversed *)
| LsLine                                          (* in a line comment *)
| LsBlock (doc : bool) (star : bool) (acc : string). (* in a block comment *)

Definition flush (st : LexState) (out : list Token) : list Token :=
  match st with
  | LsWord acc => TkWord (string_rev acc) :: out
  | _ => out
  end.

Definition word_so_far (st : LexState) : string :=
  match st with
  | LsWord acc => acc
  | _ => ""
  end.

Definition starts_with (c : ascii) (s : string) : bool :=
  match s with
  | String c' _ => Ascii.eqb c c'
  | EmptyString => false
  end.

Definition close_comment (doc : bool) (acc : string) (out : list Token)
  : list Token :=
  if doc
  then TkDoc (doc_lines (string_rev (strip_star acc))) :: out
  else out.

(** [lex st s out]: the tokens of [s], after those of [out] (reversed);
    [None] on an unterminated string or comment. *)
Fixpoint lex (st : LexState) (s : string) (out : list Token)
  : option (list Token) :=
  match s with
  | EmptyString =>
      match st with
      | LsCode | LsWord _ | LsLine => Some (rev (flush st out))
      | LsStr _ _ | LsBlock _ _ _ => None
      end
  | String c rest =>
      match st with
      | LsLine =>
          if Ascii.eqb c newline then lex LsCode rest out
          else lex LsLine rest out
      | LsStr q acc =>
          if Ascii.eqb c q then lex LsCode rest (TkStr (string_rev acc) :: out)
          else lex (LsStr q (String c acc)) rest out
      | LsBlock doc star acc =>
          if star && Ascii.eqb c "/"
          then lex LsCode rest (close_comment doc acc out)
          else lex (LsBlock doc (Ascii.eqb c "*") (String c acc)) rest out
      | LsCode | LsWord _ =>
          if is_word_char c then lex (LsWord (String c (word_so_far st))) rest out
          else
            let out := flush st out in
            if is_space c then lex LsCode rest out
            else if Ascii.eqb c double_quote || Ascii.eqb c single_quote
            then lex (LsStr c "") rest out
            else
              match rest with
              | String c' rest' =>
                  if Ascii.eqb c "/" && Ascii.eqb c' "/"
                  then lex LsLine rest' out
                  else if Ascii.eqb c "/" && Ascii.eqb c' "*"
                  then lex (LsBlock (starts_with "*" rest') false "") rest' out
                  else if Ascii.eqb c "=" && Ascii.eqb c' ">"
                  then lex LsCode rest' (TkArrow :: out)
                  else lex LsCode rest (TkSym c :: out)
              | EmptyString => lex LsCode rest (TkSym c :: out)
              end
      end
  end.

Definition tokens (s : string) : option (list Token) := lex LsCode s [].

(** ** Parser *)

Notation "' p <- e ;; k" :=
  (match e with Some p => k | None => None end)
  (at level 61, p pattern, e at next level, right associativity, only parsing).
Notation "x <- e ;; k" :=
  (match e with Some x => k | None => None end)
  (at level 61, e at next level, right associativity, only parsing).

Definition is_sym (c : ascii) (t : Token) : bool :=
  match t with
  | TkSym c' => Ascii.eqb c c'
  | _ => false
  end.

Definition is_word (w : string) (t : Token) : bool :=
  match t with
  | TkWord w' => String.eqb w w'
  | _ => false
  end.

(** Expect one punctuation token. *)
Definition sym (c : ascii) (ts : list Token) : option (list Token) :=
  match ts with
  | t :: r => if is_sym c t then Some r else None
  | [] => None
  end.

(** An optional punctuation token: was it there, and what follows. *)
Definition sym_opt (c : ascii) (ts : list Token) : bool * list Token :=
  match ts with
  | t :: r => if is_sym c t then (true, r) else (false, ts)
  | [] => (false, ts)
  end.

Definition keyword (w : string) (ts : list Token) : option (list Token) :=
  match ts with
  | t :: r => if is_word w t then Some r else None
  | [] => None
  end.

Definition keyword_opt (w : string) (ts : list Token) : bool * list Token :=
  match ts with
  | t :: r => if is_word w t then (true, r) else (false, ts)
  | [] => (false, ts)
  end.

Definition ident (ts : list Token) : option (string * list Token) :=
  match ts with
  | TkWord w :: r => Some (w, r)
  | _ => None
  end.

(** The doc comment a declaration carries: the last one before it. *)
Fixpoint take_doc (doc : Doc) (ts : list Token) : Doc * list Token :=
  match ts with
  | TkDoc lines :: r => take_doc lines r
  | _ => (doc, ts)
  end.

(** Any number of [[]] after a type. *)
Fixpoint array_suffix (t : TsType) (ts : list Token) : TsType * list Token :=
  match ts with
  | a :: b :: r =>
      if is_sym "[" a && is_sym "]" b then array_suffix (TArray t) r
      else (t, ts)
  | _ => (t, ts)
  end.

Definition keyword_type (w : string) : option TsType :=
  if String.eqb w "any" then Some TAny
  else if String.eqb w "number" then Some TNumber
  else if String.eqb w "string" then Some TString
  else if String.eqb w "boolean" then Some TBoolean
  else if String.eqb w "void" then Some TVoid
  else if String.eqb w "null" then Some TNull
  else None.

(** Does a type start like a function type: [()] or [(x:] or [(x?] ? *)
Definition starts_function_type (ts : list Token) : bool :=
  match ts with
  | a :: b :: r =>
      is_sym "(" a &&
      (is_sym ")" b ||
       match b, r with
       | TkWord _, c :: _ => is_sym ":" c || is_sym "?" c
       | _, _ => false
       end)
  | _ => false
  end.

Fixpoint parse_type (fuel : nat) (ts : list Token)
  : option (TsType * list Token) :=
  match fuel with
  | O => None
  | S f =>
      if starts_function_type ts then
        '(ps, r1) <- parse_params f ts ;;
        match r1 with
        | TkArrow :: r2 =>
            '(ret, r3) <- parse_type f r2 ;;
            Some (TFunction ps ret, r3)
        | _ => None
        end
      else
        '(t, r1) <- parse_postfix f ts ;;
        '(alts, r2) <- parse_alts f r1 ;;
        Some (match alts with [] => t | _ => TUnion (t :: alts) end, r2)
  end
with parse_alts (fuel : nat) (ts : list Token)
  : option (list TsType * list Token) :=
  match fuel with
  | O => None
  | S f =>
      match sym_opt "|" ts with
      | (true, r) =>
          '(t, r1) <- parse_postfix f r ;;
          '(more, r2) <- parse_alts f r1 ;;
          Some (t :: more, r2)
      | (false, _) => Some ([], ts)
      end
  end
with parse_postfix (fuel : nat) (ts : list Token)
  : option (TsType * list Token) :=
  match fuel with
  | O => None
  | S f =>
      '(t, r) <- parse_primary f ts ;;
      Some (array_suffix t r)
  end
with parse_primary (fuel : nat) (ts : list Token)
  : option (TsType * list Token) :=
  match fuel with
  | O => None
  | S f =>
      match ts with
      | TkWord w :: r =>
          match keyword_type w with
          | Some t => Some (t, r)
          | None =>
              match sym_opt "<" r with
              | (true, r1) =>
                  '(args, r2) <- parse_type_args f r1 ;;
                  Some (TRef w args, r2)
              | (false, _) => Some (TRef w [], r)
              end
          end
      | TkStr s :: r => Some (TLiteral s, r)
      | TkSym c :: r =>
          if Ascii.eqb c "(" then
            '(t, r1) <- parse_type f r ;;
            r2 <- sym ")" r1 ;;
            Some (t, r2)
          else None
      | _ => None
      end
  end
with parse_type_args (fuel : nat) (ts : list Token)
  : option (list TsType * list Token) :=
  match fuel with
  | O => None
  | S f =>
      '(t, r) <- parse_type f ts ;;
      match sym_opt "," r with
      | (true, r1) =>
          '(more, r2) <- parse_type_args f r1 ;;
          Some (t :: more, r2)
      | (false, _) =>
          r1 <- sym ">" r ;;
          Some ([t], r1)
      end
  end
with parse_params (fuel : nat) (ts : list Token)
  : option (list Param * list Token) :=
  match fuel with
  | O => None
  | S f =>
      r <- sym "(" ts ;;
      match sym_opt ")" r with
      | (true, r1) => Some ([], r1)
      | (false, _) => parse_param_list f r
      end
  end
with parse_param_list (fuel : nat) (ts : list Token)
  : option (list Param * list Token) :=
  match fuel with
  | O => None
  | S f =>
      '(name, r) <- ident ts ;;
      let '(optional, r1) := sym_opt "?" r in
      r2 <- sym ":" r1 ;;
      '(t, r3) <- parse_type f r2 ;;
      match sym_opt "," r3 with
      | (true, r4) =>
          '(more, r5) <- parse_param_list f r4 ;;
          Some (mkParam name optional t :: more, r5)
      | (false, _) =>
          r4 <- sym ")" r3 ;;
          Some ([mkParam name optional t], r4)
      end
  end.

(** [take_block depth ts acc]: the tokens up to the brace that closes the
    [depth] open ones, that brace included. *)
Fixpoint take_block (depth : nat) (ts : list Token) (acc : Code)
  : Code * list Token :=
  match ts with
  | [] => (rev acc, [])
  | t :: r =>
      if is_sym "{" t then take_block (S depth) r (t :: acc)
      else if is_sym "}" t then
        match depth with
        | O | S O => (rev (t :: acc), r)
        | S d => take_block d r (t :: acc)
        end
      else take_block depth r (t :: acc)
  end.

(** A function body, if one follows: the block in braces. *)
Definition take_body (ts : list Token) : option Code * list Token :=
  match ts with
  | t :: r =>
      if is_sym "{" t
      then let '(code, r') := take_block 1 r [t] in (Some code, r')
      else (None, ts)
  | [] => (None, ts)
  end.

(** [take_until_semi depth ts acc]: the tokens up to the next [;] outside
    braces (left in place), or up to the brace closing the enclosing
    block. *)
Fixpoint take_until_semi (depth : nat) (ts : list Token) (acc : Code)
  : Code * list Token :=
  match ts with
  | [] => (rev acc, [])
  | t :: r =>
      if is_sym "{" t then take_until_semi (S depth) r (t :: acc)
      else if is_sym "}" t then
        match depth with
        | O => (rev acc, ts)
        | S d => take_until_semi d r (t :: acc)
        end
      else if is_sym ";" t && Nat.eqb depth 0 then (rev acc, ts)
      else take_until_semi depth r (t :: acc)
  end.

(** An initializer, if one follows: [=] and the expression after it. *)
Definition take_init (ts : list Token) : option Code * list Token :=
  match ts with
  | t :: r =>
      if is_sym "=" t
      then let '(code, r') := take_until_semi 0 r [] in (Some code, r')
      else (None, ts)
  | [] => (None, ts)
  end.

(** A statement: everything up to its [;] (included), at least one token. *)
Definition take_statement (ts : list Token) : Code * list Token :=
  match ts with
  | [] => ([], [])
  | t :: r =>
      if is_sym ";" t then ([t], r)
      else
        let '(code, r') := take_until_semi 0 ts [] in
        match code, r' with
        | [], _ => ([t], r)
        | _, semi :: r'' =>
            if is_sym ";" semi then (app code [semi], r'') else (code, r')
        | _, [] => (code, [])
        end
  end.

(** What ends a signature: a body, or else a semicolon. *)
Definition end_signature (ts : list Token) : option (option Code * list Token) :=
  match take_body ts with
  | (Some code, r) => Some (Some code, snd (sym_opt ";" r))
  | (None, _) => r <- sym ";" ts ;; Some (None, r)
  end.

Definition parse_member (fuel : nat) (doc : Doc) (ts : list Token)
  : option (Member * list Token) :=
  let '(static, ts1) := keyword_opt "static" ts in
  let '(readonly, ts2) := keyword_opt "readonly" ts1 in
  '(name, r) <- ident ts2 ;;
  if match r with t :: _ => is_sym "(" t | [] => false end then
    if readonly then None else
    '(ps, r1) <- parse_params fuel r ;;
    if String.eqb name "constructor" then
      if static then None else
      '(body, r2) <- end_signature r1 ;;
      Some (MConstructor doc ps body, r2)
    else
      r2 <- sym ":" r1 ;;
      '(ret, r3) <- parse_type fuel r2 ;;
      '(body, r4) <- end_signature r3 ;;
      Some (MMethod doc static name ps ret body, r4)
  else
    if static then None else
    let '(optional, r1) := sym_opt "?" r in
    r2 <- sym ":" r1 ;;
    '(t, r3) <- parse_type fuel r2 ;;
    let '(init, r4) := take_init r3 in
    r5 <- sym ";" r4 ;;
    Some (MProperty doc readonly name optional t init, r5).

(** The members of an interface or class, up to its closing brace. *)
Fixpoint parse_members (fuel : nat) (ts : list Token)
  : option (list Member * list Token) :=
  match fuel with
  | O => None
  | S f =>
      let '(doc, ts1) := take_doc [] ts in
      match sym_opt "}" ts1 with
      | (true, r) => Some ([], r)
      | (false, _) =>
          '(m, r1) <- parse_member f doc ts1 ;;
          '(ms, r2) <- parse_members f r1 ;;
          Some (m :: ms, r2)
      end
  end.

(** [A, B, C] after [extends]. *)
Fixpoint parse_names (fuel : nat) (ts : list Token)
  : option (list string * list Token) :=
  match fuel with
  | O => None
  | S f =>
      '(n, r) <- ident ts ;;
      match sym_opt "," r with
      | (true, r1) =>
          '(more, r2) <- parse_names f r1 ;;
          Some (n :: more, r2)
      | (false, _) => Some ([n], r)
      end
  end.

Definition parse_decl (fuel : nat) (doc : Doc) (ts : list Token)
  : option (Decl * list Token) :=
  match ts with
  | TkWord kw :: r =>
      if String.eqb kw "interface" then
        '(name, r1) <- ident r ;;
        '(bases, r2) <-
          match keyword_opt "extends" r1 with
          | (true, r') => parse_names fuel r'
          | (false, _) => Some ([], r1)
          end ;;
        r3 <- sym "{" r2 ;;
        '(ms, r4) <- parse_members fuel r3 ;;
        Some (DInterface doc name bases ms, r4)
      else if String.eqb kw "class" then
        '(name, r1) <- ident r ;;
        '(base, r2) <-
          match keyword_opt "extends" r1 with
          | (true, r') => '(b, r'') <- ident r' ;; Some (Some b, r'')
          | (false, _) => Some (None, r1)
          end ;;
        r3 <- sym "{" r2 ;;
        '(ms, r4) <- parse_members fuel r3 ;;
        Some (DClass doc name base ms, r4)
      else if String.eqb kw "type" then
        '(name, r1) <- ident r ;;
        r2 <- sym "=" r1 ;;
        '(t, r3) <- parse_type fuel r2 ;;
        r4 <- sym ";" r3 ;;
        Some (DTypeAlias doc name t, r4)
      else if String.eqb kw "function" then
        '(name, r1) <- ident r ;;
        '(ps, r2) <- parse_params fuel r1 ;;
        r3 <- sym ":" r2 ;;
        '(ret, r4) <- parse_type fuel r3 ;;
        '(body, r5) <- end_signature r4 ;;
        Some (DFunction doc name ps ret body, r5)
      else
        let '(code, r') := take_statement ts in Some (DStatement code, r')
  | _ => let '(code, r') := take_statement ts in Some (DStatement code, r')
  end.

(** The declarations of a namespace, up to its closing brace. *)
Fixpoint parse_decls (fuel : nat) (ts : list Token)
  : option (list Decl * list Token) :=
  match fuel with
  | O => None
  | S f =>
      let '(doc, ts1) := take_doc [] ts in
      match ts1 with
      | [] => None
      | t :: r =>
          if is_sym "}" t then Some ([], r)
          else
            '(d, r1) <- parse_decl f doc ts1 ;;
            '(ds, r2) <- parse_decls f r1 ;;
            Some (d :: ds, r2)
      end
  end.

Definition parse_top_item (fuel : nat) (doc : Doc) (ts : list Token)
  : option (TopItem * list Token) :=
  let '(ambient, ts1) := keyword_opt "declare" ts in
  match keyword_opt "namespace" ts1 with
  | (true, r) =>
      '(name, r1) <- ident r ;;
      r2 <- sym "{" r1 ;;
      '(ds, r3) <- parse_decls fuel r2 ;;
      Some (TopNamespace (mkNamespace doc ambient name ds), r3)
  | (false, _) =>
      let '(code, r') := take_statement ts in Some (TopStatement code, r')
  end.

Fixpoint parse_top (fuel : nat) (ts : list Token) : option SourceFile :=
  match fuel with
  | O => None
  | S f =>
      let '(doc, ts1) := take_doc [] ts in
      match ts1 with
      | [] => Some []
      | _ :: _ =>
          '(item, r1) <- parse_top_item f doc ts1 ;;
          items <- parse_top f r1 ;;
          Some (item :: items)
      end
  end.

(** The declarations a text makes; [None] when it is not in the language. *)
Definition parse_file (text : string) : option SourceFile :=
  ts <- tokens text ;;
  parse_top (10 + 4 * length ts) ts.

(** ** Printer

    The tokens a syntax tree is written with; what [parse_top] reads
    back. *)

Fixpoint join (sep : Token) (parts : list (list Token)) : list Token :=
  match parts with
  | [] => []
  | [p] => p
  | p :: rest => p ++ sep :: join sep rest
  end%list.

Definition parens (ts : list Token) : list Token :=
  (TkSym "(" :: ts ++ [TkSym ")"])%list.

Definition print_doc (doc : Doc) : list Token :=
  match doc with
  | [] => []
  | _ => [TkDoc doc]
  end.

Definition print_optional (optional : bool) : list Token :=
  if optional then [TkSym "?"] else [].

Definition print_flag (flag : bool) (w : string) : list Token :=
  if flag then [TkWord w] else [].

Fixpoint print_type (t : TsType) : list Token :=
  let operand (a : TsType) :=
    match a with
    | TUnion _ | TFunction _ _ => parens (print_type a)
    | _ => print_type a
    end in
  match t with
  | TAny => [TkWord "any"]
  | TNumber => [TkWord "number"]
  | TString => [TkWord "string"]
  | TBoolean => [TkWord "boolean"]
  | TVoid => [TkWord "void"]
  | TNull => [TkWord "null"]
  | TLiteral s => [TkStr s]
  | TRef n args =>
      match args with
      | [] => [TkWord n]
      | _ => TkWord n :: TkSym "<" :: join (TkSym ",") (map print_type args)
             ++ [TkSym ">"]
      end
  | TArray e => operand e ++ [TkSym "["; TkSym "]"]
  | TUnion alts => join (TkSym "|") (map operand alts)
  | TFunction ps ret =>
      parens (join (TkSym ",") (map print_param ps))
      ++ TkArrow :: print_type ret
  end%list
with print_param (p : Param) : list Token :=
  match p with
  | mkParam n optional t =>
      TkWord n :: print_optional optional ++ TkSym ":" :: print_type t
  end%list.

Definition print_params (ps : list Param) : list Token :=
  parens (join (TkSym ",") (map print_param ps)).

(** A signature ends with its body, or with a semicolon. *)
Definition print_end (body : option Code) : list Token :=
  match body with
  | Some code => code
  | None => [TkSym ";"]
  end.

Definition print_member (m : Member) : list Token :=
  match m with
  | MProperty doc readonly n optional t init =>
      print_doc doc ++ print_flag readonly "readonly" ++ TkWord n
      :: print_optional optional ++ TkSym ":" :: print_type t
      ++ match init with
         | Some code => TkSym "=" :: code
         | None => []
         end ++ [TkSym ";"]
  | MConstructor doc ps body =>
      print_doc doc ++ TkWord "constructor" :: print_params ps
      ++ print_end body
  | MMethod doc static n ps ret body =>
      print_doc doc ++ print_flag static "static" ++ TkWord n
      :: print_params ps ++ TkSym ":" :: print_type ret ++ print_end body
  end%list.

Definition print_block (items : list (list Token)) : list Token :=
  (TkSym "{" :: concat items ++ [TkSym "}"])%list.

Definition print_decl (d : Decl) : list Token :=
  match d with
  | DInterface doc n bases ms =>
      print_doc doc ++ TkWord "interface" :: TkWord n
      :: match bases with
         | [] => []
         | _ => TkWord "extends"
                :: join (TkSym ",") (map (fun b => [TkWord b]) bases)
         end ++ print_block (map print_member ms)
  | DClass doc n base ms =>
      print_doc doc ++ TkWord "class" :: TkWord n
      :: match base with
         | Some b => [TkWord "extends"; TkWord b]
         | None => []
         end ++ print_block (map print_member ms)
  | DTypeAlias doc n body =>
      print_doc doc ++ TkWord "type" :: TkWord n :: TkSym "="
      :: print_type body ++ [TkSym ";"]
  | DFunction doc n ps ret body =>
      print_doc doc ++ TkWord "function" :: TkWord n :: print_params ps
      ++ TkSym ":" :: print_type ret ++ print_end body
  | DStatement code => code
  end%list.

Definition print_top_item (i : TopItem) : list Token :=
  match i with
  | TopNamespace ns =>
      print_doc (ns_doc ns) ++ print_flag (ns_ambient ns) "declare"
      ++ TkWord "namespace" :: TkWord (ns_name ns)
      :: print_block (map print_decl (ns_decls ns))
  | TopStatement code => code
  end%list.

Definition print_file (f : SourceFile) : list Token :=
  flat_map print_top_item f.

(** ** The text of [index.d.ts], line by line *)

Definition source_lines : list string :=
  [ "// Type definitions for WebAssembly v1 (MVP)";
    "// Project: https://github.com/winksaville/test-webassembly-js-ts";
    "// Definitions by: 01alchemist <https://twitter.com/01alchemist>, Wink Saville <wink@saville.com>";
    "// Definitions: https://github.com/DefinitelyTyped/DefinitelyTyped";
    "";
    "/**";
    " * The WebAssembly namespace, see [WebAssembly](https://github.com/webassembly)";
    " * and [WebAssembly JS API](http://webassembly.org/getting-started/js-api/)";
    " * for more information.";
    " */";
    "declare namespace WebAssembly {";
    "    interface ModuleExport {";
    "        /**";
    "         * The external name assigned to the value,";
    "         * e.g. `" ++ dq ++ "exported_func" ++ dq ++ "` or `" ++ dq ++ "imported_func" ++ dq ++ "`";
    "         */";
    "        name: string;";
    "        /** The type of value, e.g `" ++ dq ++ "global" ++ dq ++ "` or `" ++ dq ++ "function" ++ dq ++ "` */";
    "        kind: string;";
    "    }";
    "";
    "    interface ModuleImport extends ModuleExport {";
    "        /**";
    "         * The name of the module whose export is being imported";
    "         * (the first string in an `import` expression).";
    "         * E.g. `" ++ dq ++ "imports" ++ dq ++ "`.";
    "         */";
    "        module: string;";
    "    }";
    "";
    "    /**";
    "     * An uninstantiated WebAssembly module";
    "     * compiled from its WebAssembly binary code representation";
    "     */";
    "    class Module {";
    "        /**";
    "         * Synchronously compiles a WebAssembly module from";
    "         * an `ArrayBuffer`, `Uint8Array`, or other `TypedArray`";
    "         * @param bufferSource The binary data representing the module";
    "         */";
    "        constructor(bufferSource: BufferSource);";
    "        /**";
    "         * Gets `ArrayBuffer` copies of all custom sections with a certain name";
    "         * @param module The module whose sections to search";
    "         * @param sectionName The name to match to custom sections";
    "         */";
    "        static customSections(module: Module, sectionName: string): ArrayBuffer[];";
    "        /**";
    "         * Gets a list of items specified to be exported.";
    "         * Note that their values are not exported,";
    "         * since a `Module` is uninstantiated.";
    "         * @param module The module whose exports to list";
    "         */";
    "        static exports(module: Module): ModuleExport[];";
    "        /**";
    "         * Gets a list of items specified to be imported.";
    "         * Note that their values are not imported,";
    "         * since a `Module` is uninstantiated.";
    "         * @param module The module whose imports to list";
    "         */";
    "        static imports(module: Module): ModuleImport[];";
    "    }";
    "";
    "    /**";
    "     * An instantiated WebAssembly Module.";
    "     * The instance has a memory state";
    "     * and its exported functions can be executed.";
    "     */";
    "    class Instance {";
    "        /**";
    "         * The values exported by the module.";
    "         * An object mapping export name strings to values.";
    "         */";
    "        readonly exports: any;";
    "        /**";
    "         * Instantiates a `Module` with optional imported values";
    "         * @param module The WebAssembly module to instantiate";
    "         * @param importObject The values to import. E.g. `{imports: {imported_func}}` for `(import " ++ dq ++ "imports" ++ dq ++ " " ++ dq ++ "imported_func" ++ dq ++ ")`.";
    "         */";
    "        constructor(module: Module, importObject?: any);";
    "    }";
    "";
    "    interface MemoryDescriptor {";
    "        /** The number of 64KiB pages to allocate initially */";
    "        initial: number;";
    "        /**";
    "         * The (optional) maximum number of 64KiB pages";
    "         * to allow the memory to grow to.";
    "         * If omitted, memory is bounded only by resource limitations.";
    "         */";
    "        maximum?: number;";
    "    }";
    "";
    "    /**";
    "     * A growable `ArrayBuffer` which can be imported or exported";
    "     * by a WebAssembly instance.";
    "     * The memory's size is in units of 64KiB (65,536 or `2 ** 16` bytes) pages.";
    "     */";
    "    class Memory {";
    "        /**";
    "         * The bytes allocated by the memory.";
    "         * Note that the value of `buffer` changes when the memory is grown.";
    "         */";
    "        readonly buffer: ArrayBuffer;";
    "        /**";
    "         * Allocates memory for a WebAssembly module";
    "         * @param memoryDescriptor The initial and maximum sizes of the memory";
    "         */";
    "        constructor(memoryDescriptor: MemoryDescriptor);";
    "        /**";
    "         * Increases the allocated memory";
    "         * @param numPages The (nonnegative) number of pages to add";
    "         * @returns The previous number of allocated pages";
    "         */";
    "        grow(numPages: number): number;";
    "    }";
    "";
    "    interface TableDescriptor extends MemoryDescriptor {";
    "        /**";
    "         * The type of elements stored in the table.";
    "         * Currently, only `" ++ dq ++ "anyfunc" ++ dq ++ "` is allowed.";
    "         */";
    "        element: " ++ dq ++ "anyfunc" ++ dq ++ ";";
    "    }";
    "";
    "    /**";
    "     * An element in a `Table`.";
    "     * `null` if unset.";
    "     * Non-`null` values must be functions exported by an `Instance`.";
    "     */";
    "    type AnyFunc = ((args: any[]) => any) | null;";
    "";
    "    /**";
    "     * A 0-indexed list of WebAssembly functions.";
    "     * Resizable, like `Memory`, except in units of elements.";
    "     */";
    "    class Table {";
    "        /**";
    "         * The number of elements in the table.";
    "         * Valid indices are `0` to `length - 1`.";
    "         */";
    "        readonly length: number;";
    "        /**";
    "         * Allocates a table of the specified size.";
    "         * All elements are initially `null`.";
    "         * @param tableDescriptor The initial and maximum sizes of the table";
    "         */";
    "        constructor(tableDescriptor: TableDescriptor);";
    "        /**";
    "         * Gets the element at the specified index in the table";
    "         * @param index The 0-indexed index";
    "         */";
    "        get(index: number): AnyFunc;";
    "        /**";
    "         * Increases the table length";
    "         * @param numElements The (nonnegative) number of elements to add";
    "         * @returns The previous table length";
    "         */";
    "        grow(numElements: number): number;";
    "        /**";
    "         * Sets the element at the specified index in the table";
    "         * @param index The 0-indexed index";
    "         * @param value The value to set";
    "         */";
    "        set(index: number, value: AnyFunc): void;";
    "    }";
    "";
    "    /** An `Error` thrown when binary data cannot be compiled into a `Module` */";
    "    class CompileError extends Error {}";
    "";
    "    /** An `Error` thrown when instantiating an `Instance` and imports are missing */";
    "    class LinkError extends Error {}";
    "";
    "    /** An `Error` thrown when WebAssembly code attempts an invalid operation */";
    "    class RuntimeError extends Error {}";
    "";
    "    /** Asynchronously compiles binary code into a `Module` */";
    "    function compile(bufferSource: BufferSource): Promise<Module>;";
    "";
    "    /**";
    "     * Asynchronously compiles a source of binary code, e.g. a `fetch`,";
    "     * into a `Module`. Use instead of `compile` when possible.";
    "     */";
    "    function compileStreaming(source: Response | Promise<Response>): Promise<Module>;";
    "";
    "    interface ResultObject {";
    "        /** A WebAssembly module */";
    "        module: Module;";
    "        /** An instance of `module` */";
    "        instance: Instance;";
    "    }";
    "";
    "    /**";
    "     * Asynchronously compiles binary code into a `Module`";
    "     * and creates an `Instance` of it";
    "     * @param bufferSource The binary data to compile";
    "     * @param importObject Optional values to import into the instance. E.g. `{imports: {imported_func}}` for `(import " ++ dq ++ "imports" ++ dq ++ " " ++ dq ++ "imported_func" ++ dq ++ ")`.";
    "     */";
    "    function instantiate(bufferSource: BufferSource, importObject?: any): Promise<ResultObject>;";
    "    /**";
    "     * Asynchronously creates an `Instance` of an existing `Module`";
    "     * @param module The module to instantiate";
    "     * @param importObject Optional values to import into the instance. E.g. `{imports: {imported_func}}` for `(import " ++ dq ++ "imports" ++ dq ++ " " ++ dq ++ "imported_func" ++ dq ++ ")`.";
    "     */";
    "    function instantiate(module: Module, importObject?: any): Promise<Instance>;";
    "";
    "    /**";
    "     * Asynchronously compiles a source of binary code, e.g. a `fetch`,";
    "     * into a `Module` and an instantiated `Instance`.";
    "     * Use instead of `instantiate` when possible.";
    "     */";
    "    function instantiateStreaming(source: Response | Promise<Response>, importObject?: any): Promise<ResultObject>;";
    "";
    "    /**";
    "     * Checks whether binary code specifies a valid WebAssembly module";
    "     * @returns Whether compiling the module would throw a `CompileError`";
    "     */";
    "    function validate(bufferSource: BufferSource): boolean;";
    "}";
    "";
    "// Type definitions for WebAssembly v1 (MVP)";
    "// Project: https://github.com/winksaville/test-webassembly-js-ts";
    "// Definitions by: 01alchemist <https://twitter.com/01alchemist>, Wink Saville <wink@saville.com>";
    "// Definitions: https://github.com/DefinitelyTyped/DefinitelyTyped";
    "";
    "/**";
    " * The WebAssembly namespace, see [WebAssembly](https://github.com/webassembly)";
    " * and [WebAssembly JS API](http://webassembly.org/getting-started/js-api/)";
    " * for more information.";
    " */";
    "declare namespace WebAssembly {";
    "    interface ModuleExport {";
    "        name: string;";
    "        kind: string;";
    "    }";
    "";
    "    interface ModuleImport extends ModuleExport {";
    "        module: string;";
    "    }";
    "";
    "    /**";
    "     * WebAssembly.Module";
    "     */";
    "    class Module {";
    "        constructor(bufferSource: ArrayBuffer | Uint8Array);";
    "        static customSections(module: Module, sectionName: string): ArrayBuffer[];";
    "        static exports(module: Module): ModuleExport[];";
    "        static imports(module: Module): ModuleImport[];";
    "    }";
    "";
    "    /**";
    "     * WebAssembly.Instance";
    "     */";
    "    class Instance {";
    "        readonly exports: any;";
    "        constructor(module: Module, importObject?: any);";
    "    }";
    "";
    "    /**";
    "     * WebAssembly.Memory";
    "     * Note: A WebAssembly page has a constant size of 65,536 bytes, i.e., 64KiB.";
    "     */";
    "    interface MemoryDescriptor {";
    "        initial: number;";
    "        maximum?: number;";
    "    }";
    "";
    "    class Memory {";
    "        readonly buffer: ArrayBuffer;";
    "        constructor(memoryDescriptor: MemoryDescriptor);";
    "        grow(numPages: number): number;";
    "    }";
    "";
    "    /**";
    "     * WebAssembly.Table";
    "     */";
    "    interface TableDescriptor extends MemoryDescriptor {";
    "        element: " ++ dq ++ "anyfunc" ++ dq ++ ";";
    "    }";
    "";
    "    type AnyFunc = (args: any[]) => any;";
    "";
    "    class Table {";
    "        readonly length: number;";
    "        constructor(tableDescriptor: TableDescriptor);";
    "        get(index: number): AnyFunc;";
    "        grow(numElements: number): number;";
    "        set(index: number, value: AnyFunc): void;";
    "    }";
    "";
    "    /**";
    "     * Errors";
    "     */";
    "    class CompileError extends Error {}";
    "";
    "    class LinkError extends Error {}";
    "";
    "    class RuntimeError extends Error {}";
    "";
    "    function compile(bufferSource: ArrayBuffer | Uint8Array): Promise<Module>;";
    "";
    "    interface ResultObject {";
    "        module: Module;";
    "        instance: Instance;";
    "    }";
    "";
    "    function instantiate(bufferSource: ArrayBuffer | Uint8Array, importObject?: any): Promise<ResultObject>;";
    "    function instantiate(module: Module, importObject?: any): Promise<Instance>;";
    "";
    "    function validate(bufferSource: ArrayBuffer | Uint8Array): boolean;";
    "}" ].

Definition source_text : string :=
  String.concat (String newline EmptyString) source_lines.

(** * What the file declares *)

Definition namespaces (f : SourceFile) : list Namespace :=
  flat_map (fun i => match i with
                     | TopNamespace ns => [ns]
                     | TopStatement _ => []
                     end) f.

Definition decl_name (d : Decl) : option string :=
  match d with
  | DInterface _ n _ _ | DClass _ n _ _ | DTypeAlias _ n _
  | DFunction _ n _ _ _ => Some n
  | DStatement _ => None
  end.

Definition named (n : string) (d : Decl) : bool :=
  match decl_name d with
  | Some m => String.eqb n m
  | None => false
  end.

(** All the declarations of a name, in order (overloads are several). *)
Definition decls_named (n : string) (ns : Namespace) : list Decl :=
  filter (named n) (ns_decls ns).

Definition declared_names (ns : Namespace) : list string :=
  flat_map (fun d => match decl_name d with
                     | Some n => [n]
                     | None => []
                     end) (ns_decls ns).

Definition interface_names (ns : Namespace) : list string :=
  flat_map (fun d => match d with DInterface _ n _ _ => [n] | _ => [] end)
           (ns_decls ns).

Definition class_names (ns : Namespace) : list string :=
  flat_map (fun d => match d with DClass _ n _ _ => [n] | _ => [] end)
           (ns_decls ns).

Definition alias_names (ns : Namespace) : list string :=
  flat_map (fun d => match d with DTypeAlias _ n _ => [n] | _ => [] end)
           (ns_decls ns).

Definition function_names (ns : Namespace) : list string :=
  flat_map (fun d => match d with DFunction _ n _ _ _ => [n] | _ => [] end)
           (ns_decls ns).

Definition mem (n : string) (l : list string) : bool :=
  existsb (String.eqb n) l.

(** ** Executable code *)

Definition code_if (c : option Code) : list Code :=
  match c with
  | Some code => [code]
  | None => []
  end.

Definition member_code (m : Member) : list Code :=
  match m with
  | MProperty _ _ _ _ _ init => code_if init
  | MConstructor _ _ body => code_if body
  | MMethod _ _ _ _ _ body => code_if body
  end.

Definition decl_code (d : Decl) : list Code :=
  match d with
  | DInterface _ _ _ ms | DClass _ _ _ ms => flat_map member_code ms
  | DTypeAlias _ _ _ => []
  | DFunction _ _ _ _ body => code_if body
  | DStatement code => [code]
  end.

(** Every function body, initializer and statement of a file. *)
Definition executable_code (f : SourceFile) : list Code :=
  flat_map (fun i => match i with
                     | TopNamespace ns => flat_map decl_code (ns_decls ns)
                     | TopStatement code => [code]
                     end) f.

(** ** Shapes: declarations without their doc comments *)

Definition shape_member (m : Member) : Member :=
  match m with
  | MProperty _ ro n o t init => MProperty [] ro n o t init
  | MConstructor _ ps body => MConstructor [] ps body
  | MMethod _ st n ps ret body => MMethod [] st n ps ret body
  end.

Definition shape (d : Decl) : Decl :=
  match d with
  | DInterface _ n bases ms => DInterface [] n bases (map shape_member ms)
  | DClass _ n base ms => DClass [] n base (map shape_member ms)
  | DTypeAlias _ n body => DTypeAlias [] n body
  | DFunction _ n ps ret body => DFunction [] n ps ret body
  | DStatement code => DStatement code
  end.

Definition shapes (ns : Namespace) : list Decl := map shape (ns_decls ns).

Fixpoint TsType_eq_dec (a b : TsType) {struct a} : {a = b} + {a <> b}
with Param_eq_dec (p q : Param) {struct p} : {p = q} + {p <> q}.
Proof.
  - decide equality; try apply string_dec.
    + apply (list_eq_dec TsType_eq_dec).
    + apply (list_eq_dec TsType_eq_dec).
    + apply (list_eq_dec Param_eq_dec).
  - decide equality; try apply string_dec; apply bool_dec.
Defined.

Definition Token_eq_dec (a b : Token) : {a = b} + {a <> b}.
Proof.
  decide equality; try apply string_dec; try apply ascii_dec.
  apply (list_eq_dec string_dec).
Defined.

Definition Member_eq_dec (a b : Member) : {a = b} + {a <> b}.
Proof.
  decide equality;
    try apply string_dec; try apply bool_dec; try apply TsType_eq_dec;
    try apply (list_eq_dec string_dec); try apply (list_eq_dec Param_eq_dec).
  all: decide equality; apply (list_eq_dec Token_eq_dec).
Defined.

Definition Decl_eq_dec (a b : Decl) : {a = b} + {a <> b}.
Proof.
  decide equality;
    try apply string_dec; try apply bool_dec; try apply TsType_eq_dec;
    try apply (list_eq_dec string_dec); try apply (list_eq_dec Param_eq_dec);
    try apply (list_eq_dec Member_eq_dec); try apply (list_eq_dec Token_eq_dec).
  all: decide equality; try apply string_dec; apply (list_eq_dec Token_eq_dec).
Defined.

Definition same_shape (d d' : Decl) : bool :=
  if Decl_eq_dec (shape d) (shape d') then true else false.

(** [d] is declared with the same shape in [ns]. *)
Definition declared_in (d : Decl) (ns : Namespace) : bool :=
  existsb (same_shape d) (ns_decls ns).

(** Every declaration of each namespace has its like in the other. *)
Definition copies_agree (a b : Namespace) : bool :=
  forallb (fun d => declared_in d b) (ns_decls a)
  && forallb (fun d => declared_in d a) (ns_decls b).

(** The declarations of [a] that [b] does not have in the same shape, and
    those it has. *)
Definition only_in (a b : Namespace) : list Decl :=
  filter (fun d => negb (declared_in d b)) (ns_decls a).

Definition also_in (a b : Namespace) : list Decl :=
  filter (fun d => declared_in d b) (ns_decls a).

(** *** The older spelling of the declarations

    [legacy_type] writes [ArrayBuffer | Uint8Array] for [BufferSource];
    [without_null] takes [null] out of a union. *)

Fixpoint legacy_type (t : TsType) : TsType :=
  match t with
  | TRef n args =>
      match args with
      | [] => if String.eqb n "BufferSource"
              then TUnion [ArrayBuffer; Uint8Array] else t
      | _ => TRef n (map legacy_type args)
      end
  | TArray e => TArray (legacy_type e)
  | TUnion alts => TUnion (map legacy_type alts)
  | TFunction ps ret => TFunction (map legacy_param ps) (legacy_type ret)
  | _ => t
  end
with legacy_param (p : Param) : Param :=
  match p with
  | mkParam n o t => mkParam n o (legacy_type t)
  end.

Definition is_null (t : TsType) : bool :=
  match t with
  | TNull => true
  | _ => false
  end.

Definition without_null (t : TsType) : TsType :=
  match t with
  | TUnion alts =>
      match filter (fun a => negb (is_null a)) alts with
      | [a] => a
      | alts' => TUnion alts'
      end
  | _ => t
  end.

Definition legacy_member (m : Member) : Member :=
  match m with
  | MProperty doc ro n o t init => MProperty doc ro n o (legacy_type t) init
  | MConstructor doc ps body => MConstructor doc (map legacy_param ps) body
  | MMethod doc st n ps ret body =>
      MMethod doc st n (map legacy_param ps) (legacy_type ret) body
  end.

Definition legacy_decl (d : Decl) : Decl :=
  match d with
  | DInterface doc n bases ms => DInterface doc n bases (map legacy_member ms)
  | DClass doc n base ms => DClass doc n base (map legacy_member ms)
  | DTypeAlias doc n body => DTypeAlias doc n (without_null (legacy_type body))
  | DFunction doc n ps ret body =>
      DFunction doc n (map legacy_param ps) (legacy_type ret) body
  | DStatement code => DStatement code
  end.

Definition streaming_functions : list string :=
  [ "compileStreaming"; "instantiateStreaming" ].

Definition is_streaming (d : Decl) : bool :=
  match d with
  | DFunction _ n _ _ _ => mem n streaming_functions
  | _ => false
  end.

(** ** Inheritance *)

Definition class_heritage (ns : Namespace)
  : list (string * string * list Member) :=
  flat_map (fun d => match d with
                     | DClass _ n (Some base) ms => [(n, base, ms)]
                     | _ => []
                     end) (ns_decls ns).

Definition interface_heritage (ns : Namespace) : list (string * list string) :=
  flat_map (fun d => match d with
                     | DInterface _ n (b :: bases) _ => [(n, b :: bases)]
                     | _ => []
                     end) (ns_decls ns).

Definition lookup_interface (n : string) (ns : Namespace)
  : option (list string * list Member) :=
  match filter (fun d => match d with
                         | DInterface _ m _ _ => String.eqb n m
                         | _ => false
                         end) (ns_decls ns) with
  | DInterface _ _ bases ms :: _ => Some (bases, ms)
  | _ => None
  end.

Definition lookup_class (n : string) (ns : Namespace)
  : option (option string * list Member) :=
  match filter (fun d => match d with
                         | DClass _ m _ _ => String.eqb n m
                         | _ => false
                         end) (ns_decls ns) with
  | DClass _ _ base ms :: _ => Some (base, ms)
  | _ => None
  end.

Definition lookup_alias (n : string) (ns : Namespace) : option TsType :=
  match filter (fun d => match d with
                         | DTypeAlias _ m _ => String.eqb n m
                         | _ => false
                         end) (ns_decls ns) with
  | DTypeAlias _ _ body :: _ => Some body
  | _ => None
  end.

(** The members of an interface, those of the interfaces it extends first. *)
Fixpoint interface_members (fuel : nat) (n : string) (ns : Namespace)
  : list Member :=
  match fuel with
  | O => []
  | S f =>
      match lookup_interface n ns with
      | Some (bases, ms) =>
          flat_map (fun b => interface_members f b ns) bases ++ ms
      | None => []
      end
  end%list.

(** A field: its name, whether it is optional, its type. *)
Definition field_of (m : Member) : list (string * bool * TsType) :=
  match m with
  | MProperty _ _ n o t _ => [(n, o, t)]
  | _ => []
  end.

Definition fields (ms : list Member) : list (string * bool * TsType) :=
  flat_map field_of ms.

Definition is_property (m : Member) : bool :=
  match m with
  | MProperty _ _ _ _ _ _ => true
  | _ => false
  end.

(** ** Signatures *)

(** The signatures of the functions called [n]: parameters and return type. *)
Definition function_signatures (n : string) (ns : Namespace)
  : list (list Param * TsType) :=
  flat_map (fun d => match d with
                     | DFunction _ m ps ret _ =>
                         if String.eqb n m then [(ps, ret)] else []
                     | _ => []
                     end) (ns_decls ns).

Definition function_docs (n : string) (ns : Namespace) : list Doc :=
  flat_map (fun d => match d with
                     | DFunction doc m _ _ _ =>
                         if String.eqb n m then [doc] else []
                     | _ => []
                     end) (ns_decls ns).

Definition alias_docs (n : string) (ns : Namespace) : list Doc :=
  flat_map (fun d => match d with
                     | DTypeAlias doc m _ =>
                         if String.eqb n m then [doc] else []
                     | _ => []
                     end) (ns_decls ns).

Definition class_members (c : string) (ns : Namespace) : list Member :=
  match lookup_class c ns with
  | Some (_, ms) => ms
  | None => []
  end.

(** The methods called [n] of class [c]: static or not, parameters, return
    type. *)
Definition method_signatures (c n : string) (ns : Namespace)
  : list (bool * list Param * TsType) :=
  flat_map (fun m => match m with
                     | MMethod _ st m ps ret _ =>
                         if String.eqb n m then [(st, ps, ret)] else []
                     | _ => []
                     end) (class_members c ns).

Definition method_docs (c n : string) (ns : Namespace) : list Doc :=
  flat_map (fun m => match m with
                     | MMethod doc _ m _ _ _ =>
                         if String.eqb n m then [doc] else []
                     | _ => []
                     end) (class_members c ns).

Definition constructor_signatures (c : string) (ns : Namespace)
  : list (list Param) :=
  flat_map (fun m => match m with
                     | MConstructor _ ps _ => [ps]
                     | _ => []
                     end) (class_members c ns).

Definition constructor_docs (c : string) (ns : Namespace) : list Doc :=
  flat_map (fun m => match m with
                     | MConstructor doc _ _ => [doc]
                     | _ => []
                     end) (class_members c ns).

(** [Promise<T>] *)
Definition is_promise (t : TsType) : bool :=
  match t with
  | TRef n [_] => String.eqb n "Promise"
  | _ => false
  end.

Definition async_functions : list string :=
  [ "compile"; "instantiate"; "compileStreaming"; "instantiateStreaming" ].

(** ** Where a type is used *)

Fixpoint mentions (n : string) (t : TsType) : bool :=
  match t with
  | TRef m args => String.eqb n m || existsb (mentions n) args
  | TArray e => mentions n e
  | TUnion alts => existsb (mentions n) alts
  | TFunction ps ret => existsb (param_mentions n) ps || mentions n ret
  | _ => false
  end
with param_mentions (n : string) (p : Param) : bool :=
  match p with
  | mkParam _ _ t => mentions n t
  end.

(** The places of a namespace where a type is written. *)
Inductive Site : Type :=
| PropertyType (owner name : string)
| ConstructorParam (owner param : string)
| MethodParam (owner method param : string)
| MethodReturn (owner method : string)
| AliasBody (name : string)
| FunctionParam (function param : string)
| FunctionReturn (function : string).

Definition member_sites (owner : string) (m : Member) : list (Site * TsType) :=
  match m with
  | MProperty _ _ n _ t _ => [(PropertyType owner n, t)]
  | MConstructor _ ps _ =>
      map (fun p => (ConstructorParam owner (p_name p), p_type p)) ps
  | MMethod _ _ n ps ret _ =>
      map (fun p => (MethodParam owner n (p_name p), p_type p)) ps
      ++ [(MethodReturn owner n, ret)]
  end%list.

Definition decl_sites (d : Decl) : list (Site * TsType) :=
  match d with
  | DInterface _ n _ ms | DClass _ n _ ms => flat_map (member_sites n) ms
  | DTypeAlias _ n body => [(AliasBody n, body)]
  | DFunction _ n ps ret _ =>
      map (fun p => (FunctionParam n (p_name p), p_type p)) ps
      ++ [(FunctionReturn n, ret)]
  | DStatement _ => []
  end%list.

(** Every place where [n] is written as (part of) a type. *)
Definition uses (n : string) (ns : Namespace) : list Site :=
  map fst (filter (fun st => mentions n (snd st))
                  (flat_map decl_sites (ns_decls ns))).

(** * Values and the types they have

    What it means for a value of the host to have a declared type.  A
    number is an IEEE 754 double, as a JavaScript [number] is.  Functions
    and the objects the host constructs ([Module], [ArrayBuffer],
    [Promise], ...) are opaque: a function is only known to be one, a host
    object only by the class that made it.  The parameters and the result
    of a function are not looked into, so that the check, exact on data,
    is generous on functions: it takes a function to have any function
    type.  The theorems are about data and [null]; none of them rests on
    which functions have a function type. *)

Inductive Value : Type :=
| VUndefined
| VNull
| VBoolean (b : bool)
| VNumber (x : float)
| VString (s : string)
| VArray (items : list Value)
| VObject (props : list (string * Value))
| VFunction
| VHost (class : string).

Fixpoint get_field (n : string) (props : list (string * Value))
  : option Value :=
  match props with
  | (m, v) :: rest => if String.eqb n m then Some v else get_field n rest
  | [] => None
  end.

(** [v.n], when [v] is an object that has the property. *)
Definition field (n : string) (v : Value) : option Value :=
  match v with
  | VObject props => get_field n props
  | _ => None
  end.

Definition is_undefined (v : Value) : bool :=
  match v with
  | VUndefined => true
  | _ => false
  end.

(** Is class [c] the class [base], or declared to extend it (at any
    distance)? *)
Fixpoint extends_class (fuel : nat) (ns : Namespace) (c base : string)
  : bool :=
  String.eqb c base
  || match fuel with
     | O => false
     | S f =>
         match lookup_class c ns with
         | Some (Some b, _) => extends_class f ns b base
         | _ => false
         end
     end.

(** A chain of [extends] without a cycle is no longer than the namespace
    has declarations. *)
Definition subclass (ns : Namespace) (c base : string) : bool :=
  extends_class (length (ns_decls ns)) ns c base.

(** An object has a member: a required property is there with a value of
    its type, an optional one may be missing or undefined, a method is a
    function. *)
Definition has_member (check : TsType -> Value -> bool)
  (props : list (string * Value)) (m : Member) : bool :=
  match m with
  | MProperty _ _ n optional t _ =>
      match get_field n props with
      | Some v => check t v || (optional && is_undefined v)
      | None => optional
      end
  | MMethod _ _ n _ _ _ =>
      match get_field n props with
      | Some VFunction => true
      | _ => false
      end
  | MConstructor _ _ _ => true
  end.

(** One level of the check that [v] has the type [t], read in the
    namespace [ns]; [check] is the check of the parts. *)
Definition conforms_step (check : TsType -> Value -> bool) (ns : Namespace)
  (t : TsType) (v : Value) : bool :=
  match t with
  | TAny => true
  | TNumber => match v with VNumber _ => true | _ => false end
  | TString => match v with VString _ => true | _ => false end
  | TBoolean => match v with VBoolean _ => true | _ => false end
  | TVoid => is_undefined v
  | TNull => match v with VNull => true | _ => false end
  | TLiteral s => match v with VString s' => String.eqb s s' | _ => false end
  | TArray e =>
      match v with
      | VArray items => forallb (check e) items
      | _ => false
      end
  | TUnion alts => existsb (fun a => check a v) alts
  | TFunction _ _ => match v with VFunction => true | _ => false end
  | TRef n _ =>
      match lookup_alias n ns with
      | Some body => check body v
      | None =>
          match lookup_interface n ns with
          | Some (bases, ms) =>
              match v with
              | VObject props =>
                  forallb (fun b => check (TName b) v) bases
                  && forallb (has_member check props) ms
              | _ => false
              end
          | None =>
              match v with
              | VHost c => subclass ns c n
              | _ => false
              end
          end
      end
  end.

(** [conforms fuel ns t v]: the value [v] has the type [t], read in the
    namespace [ns].  [fuel] bounds the depth of the check (a name is looked
    up, a union or an array is entered). *)
Fixpoint conforms (fuel : nat) (ns : Namespace) (t : TsType) (v : Value)
  : bool :=
  match fuel with
  | O => false
  | S f => conforms_step (conforms f ns) ns t v
  end.


(** * The properties, as predicates *)

(** The two namespaces agree: every declaration of each is declared with
    the same shape in the other. *)
Definition Agree (a b : Namespace) : Prop :=
  (forall d, In d (ns_decls a) ->
     exists d', In d' (ns_decls b) /\ shape d = shape d')
  /\ (forall d, In d (ns_decls b) ->
     exists d', In d' (ns_decls a) /\ shape d = shape d').

Definition interface_bases (n : string) (ns : Namespace) : list string :=
  match lookup_interface n ns with
  | Some (bases, _) => bases
  | None => []
  end.

Definition own_members (n : string) (ns : Namespace) : list Member :=
  match lookup_interface n ns with
  | Some (_, ms) => ms
  | None => []
  end.

(** The signatures of a function name over the whole file. *)
Definition file_signatures (n : string) (f : SourceFile)
  : list (list Param * TsType) :=
  flat_map (function_signatures n) (namespaces f).

Definition error_classes : list string :=
  [ "CompileError"; "LinkError"; "RuntimeError" ].

(** The classes of the file that extend another class. *)
Definition derived_classes (f : SourceFile) : list string :=
  nodup string_dec
    (flat_map (fun ns => map (fun h => fst (fst h)) (class_heritage ns))
              (namespaces f)).

(** A table descriptor: one page-count-like number and the element kind. *)
Definition a_table_descriptor : Value :=
  VObject [ ("initial", VNumber 2%float); ("element", VString "anyfunc") ].

(** * Further readings of the declarations *)

(** ** The names a namespace refers to *)

Fixpoint type_names (t : TsType) : list string :=
  match t with
  | TRef n args => n :: flat_map type_names args
  | TArray e => type_names e
  | TUnion alts => flat_map type_names alts
  | TFunction ps ret => flat_map param_type_names ps ++ type_names ret
  | _ => []
  end%list
with param_type_names (p : Param) : list string :=
  match p with
  | mkParam _ _ t => type_names t
  end.

Definition heritage_names (d : Decl) : list string :=
  match d with
  | DInterface _ _ bases _ => bases
  | DClass _ _ (Some base) _ => [base]
  | _ => []
  end.

(** Every name a declaration refers to: what it extends, and the names in
    the types it writes. *)
Definition decl_refs (d : Decl) : list string :=
  (heritage_names d ++ flat_map (fun st => type_names (snd st)) (decl_sites d))%list.

(** [l] without repeats, first occurrences kept. *)
Fixpoint dedup (l seen : list string) : list string :=
  match l with
  | [] => []
  | x :: rest =>
      if mem x seen then dedup rest seen else x :: dedup rest (x :: seen)
  end.

(** The names a namespace refers to and does not declare. *)
Definition external_names (ns : Namespace) : list string :=
  filter (fun n => negb (mem n (declared_names ns)))
         (dedup (flat_map decl_refs (ns_decls ns)) []).

(** ** Parameter lists *)

(** The parameter lists of the function types written inside a type. *)
Fixpoint function_types (t : TsType) : list (list Param) :=
  match t with
  | TRef _ args => flat_map function_types args
  | TArray e => function_types e
  | TUnion alts => flat_map function_types alts
  | TFunction ps ret =>
      ps :: flat_map param_function_types ps ++ function_types ret
  | _ => []
  end%list
with param_function_types (p : Param) : list (list Param) :=
  match p with
  | mkParam _ _ t => function_types t
  end.

Definition member_parameter_lists (m : Member) : list (list Param) :=
  match m with
  | MProperty _ _ _ _ _ _ => []
  | MConstructor _ ps _ => [ps]
  | MMethod _ _ _ ps _ _ => [ps]
  end.

(** Every parameter list of a declaration: of its signatures, and of the
    function types in the types it writes. *)
Definition decl_parameter_lists (d : Decl) : list (list Param) :=
  (match d with
   | DInterface _ _ _ ms | DClass _ _ _ ms => flat_map member_parameter_lists ms
   | DFunction _ _ ps _ _ => [ps]
   | _ => []
   end ++ flat_map (fun st => function_types (snd st)) (decl_sites d))%list.

Definition parameter_lists (ns : Namespace) : list (list Param) :=
  flat_map decl_parameter_lists (ns_decls ns).

Fixpoint distinct (l : list string) : bool :=
  match l with
  | [] => true
  | x :: rest => negb (mem x rest) && distinct rest
  end.

(** No required parameter after an optional one. *)
Fixpoint required_first (ps : list Param) : bool :=
  match ps with
  | [] => true
  | p :: rest =>
      if p_optional p then forallb p_optional rest else required_first rest
  end.

(** The optional parameters of a list, and those before the last. *)
Definition optional_params (ps : list Param) : list Param :=
  filter p_optional ps.

Definition optional_before_last (ps : list Param) : list Param :=
  optional_params (removelast ps).

(** ** Members by kind *)

(** The properties of a declaration: owner, name, whether readonly. *)
Definition decl_properties (d : Decl) : list (string * string * bool) :=
  match d with
  | DInterface _ n _ ms | DClass _ n _ ms =>
      flat_map (fun m => match m with
                         | MProperty _ ro p _ _ _ => [(n, p, ro)]
                         | _ => []
                         end) ms
  | _ => []
  end.

Definition class_properties (ns : Namespace) : list (string * string * bool) :=
  flat_map (fun d => match d with
                     | DClass _ _ _ _ => decl_properties d
                     | _ => []
                     end) (ns_decls ns).

Definition interface_properties (ns : Namespace)
  : list (string * string * bool) :=
  flat_map (fun d => match d with
                     | DInterface _ _ _ _ => decl_properties d
                     | _ => []
                     end) (ns_decls ns).

(** The methods of a namespace: owner, name, whether static, parameters,
    return type. *)
Definition methods (ns : Namespace)
  : list (string * string * bool * list Param * TsType) :=
  flat_map (fun d => match d with
                     | DInterface _ n _ ms | DClass _ n _ ms =>
                         flat_map (fun m => match m with
                                            | MMethod _ st m ps ret _ =>
                                                [(n, m, st, ps, ret)]
                                            | _ => []
                                            end) ms
                     | _ => []
                     end) (ns_decls ns).

Definition is_static (m : string * string * bool * list Param * TsType) : bool :=
  let '(_, _, st, _, _) := m in st.

Definition owner_and_name (m : string * string * bool * list Param * TsType)
  : string * string :=
  let '(c, n, _, _, _) := m in (c, n).

Definition is_array (t : TsType) : bool :=
  match t with
  | TArray _ => true
  | _ => false
  end.

(** A method that takes a [Module] first and returns an array. *)
Definition lists_of_a_module (m : string * string * bool * list Param * TsType)
  : bool :=
  let '(_, _, _, ps, ret) := m in
  match ps with
  | mkParam _ false (TRef n []) :: _ => String.eqb n "Module" && is_array ret
  | _ => false
  end.

(** ** Doc comment tags *)










(** ** Where [any] is written *)

Fixpoint mentions_any (t : TsType) : bool :=
  match t with
  | TAny => true
  | TRef _ args => existsb mentions_any args
  | TArray e => mentions_any e
  | TUnion alts => existsb mentions_any alts
  | TFunction ps ret => existsb param_mentions_any ps || mentions_any ret
  | _ => false
  end
with param_mentions_any (p : Param) : bool :=
  match p with
  | mkParam _ _ t => mentions_any t
  end.

Definition any_sites (ns : Namespace) : list Site :=
  map fst (filter (fun st => mentions_any (snd st))
                  (flat_map decl_sites (ns_decls ns))).

(** ** Having a type *)

(** [v] has the type [t]: it conforms within some depth. *)
Definition has_type (ns : Namespace) (t : TsType) (v : Value) : Prop :=
  exists fuel, conforms fuel ns t v = true.

(** The object with the properties [props] has the member [m]. *)
Definition member_ok (ns : Namespace) (props : list (string * Value))
  (m : Member) : Prop :=
  exists fuel, has_member (conforms fuel ns) props m = true.

Definition is_number (v : Value) : Prop := exists x, v = VNumber x.
Definition is_string (v : Value) : Prop := exists s, v = VString s.

(** Some values, for the instances of the theorems on values. *)
Definition an_import : Value :=
  VObject [ ("module", VString "imports"); ("name", VString "imported_func");
            ("kind", VString "function") ].

(** A property of every namespace of the file: of the first copy, and of
    the second. *)
Ltac both_copies :=
  change (namespaces index_d_ts) with [first_copy; second_copy];
  apply Forall_cons; [ | apply Forall_cons; [ | apply Forall_nil ] ].

(** * The syntax tree is that of the text *)

(** Parsing the text of [index.d.ts] gives [index_d_ts]. *)
Lemma parse_index_d_ts : parse_file source_text = Some index_d_ts.
Proof. vm_compute. reflexivity. Qed.

(** The text is the 311 lines, 10553 bytes, of the file. *)
Lemma source_text_size :
  length source_lines = 311
  /\ N.of_nat (String.length source_text) = 10553%N.
Proof. split; vm_compute; reflexivity. Qed.

(** The parser keeps a function body, an initializer and a statement where
    a text has them: that [index.d.ts] has none is a fact about its text. *)
Example parse_keeps_code :
  option_map executable_code
    (parse_file
       "declare namespace N { function f(x: number): number { return x; } class K { p: number = 3; } f(1); }")
  = Some [ [TkSym "{"; TkWord "return"; TkWord "x"; TkSym ";"; TkSym "}"];
           [TkWord "3"];
           [TkWord "f"; TkSym "("; TkWord "1"; TkSym ")"; TkSym ";"] ].
Proof. vm_compute. reflexivity. Qed.

(** Nothing of the text but its plain comments is left out of the syntax
    tree: printed, the tree is the tokens of the text, and the printed
    tokens parse to the tree. *)
Lemma print_index_d_ts :
  tokens source_text = Some (print_file index_d_ts)
  /\ parse_top (10 + 4 * length (print_file index_d_ts))
               (print_file index_d_ts)
     = Some index_d_ts.
Proof. split; vm_compute; reflexivity. Qed.

Lemma namespaces_index_d_ts :
  namespaces index_d_ts = [first_copy; second_copy].
Proof. reflexivity. Qed.


(** * C2: declarations only *)

(** C2. The file consists solely of type declarations: its text parses to
    the two ambient namespaces [first_copy] and [second_copy]; each declares
    interfaces, classes, one type alias and function signatures, among them
    the classes [Module], [Instance], [Memory] and [Table], the three error
    classes and the functions [compile] and [instantiate]; and no function
    body, initializer or statement occurs anywhere in the file. *)
Theorem C2_declarations_only :
  let declarations_only (ns : Namespace) :=
    ns_ambient ns = true
    /\ Forall (fun d => match d with
                        | DInterface _ _ _ ms | DClass _ _ _ ms =>
                            Forall (fun m => member_code m = []) ms
                        | DTypeAlias _ _ _ => True
                        | DFunction _ _ _ _ body => body = None
                        | DStatement _ => False
                        end) (ns_decls ns)
    /\ interface_names ns
       = [ "ModuleExport"; "ModuleImport"; "MemoryDescriptor";
           "TableDescriptor"; "ResultObject" ]
    /\ class_names ns
       = [ "Module"; "Instance"; "Memory"; "Table";
           "CompileError"; "LinkError"; "RuntimeError" ]
    /\ alias_names ns = [ "AnyFunc" ]
    /\ incl [ "compile"; "instantiate"; "validate" ] (function_names ns) in
  parse_file source_text = Some index_d_ts
  /\ index_d_ts = [ TopNamespace first_copy; TopNamespace second_copy ]
  /\ executable_code index_d_ts = []
  /\ declarations_only first_copy
  /\ declarations_only second_copy
  /\ function_names first_copy
     = [ "compile"; "compileStreaming"; "instantiate"; "instantiate";
         "instantiateStreaming"; "validate" ]
  /\ function_names second_copy
     = [ "compile"; "instantiate"; "instantiate"; "validate" ].
Proof.
  cbv zeta.
  split; [ exact parse_index_d_ts | ].
  split; [ reflexivity | ].
  split; [ reflexivity | ].
  split; [ | split; [ | split; reflexivity ] ];
    (split; [ reflexivity | ]);
    (split; [ repeat constructor | ]);
    repeat (split; [ reflexivity | ]);
    intros x Hx; vm_compute in Hx |- *; tauto.
Qed.

(** * C3: the error classes *)

(** C3. In each copy the classes that extend anything are exactly
    [CompileError], [LinkError] and [RuntimeError], each extending [Error]
    with no member of its own; over the file these are three names; every
    other [extends] has an interface on both sides. *)
Theorem C3_error_classes :
  Forall (fun ns =>
    class_heritage ns
    = [ ("CompileError", "Error", []); ("LinkError", "Error", []);
        ("RuntimeError", "Error", []) ]
    /\ interface_heritage ns
       = [ ("ModuleImport", ["ModuleExport"]);
           ("TableDescriptor", ["MemoryDescriptor"]) ]
    /\ Forall (fun h =>
         mem (fst h) (interface_names ns) = true
         /\ Forall (fun b => mem b (interface_names ns) = true
                             /\ mem b (class_names ns) = false) (snd h))
       (interface_heritage ns))
    (namespaces index_d_ts)
  /\ derived_classes index_d_ts = error_classes.
Proof.
  split; [ | reflexivity ].
  both_copies; (split; [reflexivity | split; [reflexivity | ]]);
    repeat constructor.
Qed.

(** * C4: the descriptors *)

(** C4. In the first copy and in the second, [MemoryDescriptor] is declared
    and has exactly the required number [initial] and the optional number
    [maximum]; [TableDescriptor], which extends it, has exactly those two and
    the required [element]; neither has a method or is a class; and the only
    place each is written as a type is the parameter of the constructor of
    [Memory], respectively of [Table]. *)
Theorem C4_descriptors :
  let descriptors (ns : Namespace) :=
    (forall k,
       fields (interface_members (S k) "MemoryDescriptor" ns)
       = [ ("initial", false, TNumber); ("maximum", true, TNumber) ]
       /\ forallb is_property (interface_members (S k) "MemoryDescriptor" ns)
          = true)
    /\ (forall k,
       fields (interface_members (S (S k)) "TableDescriptor" ns)
       = [ ("initial", false, TNumber); ("maximum", true, TNumber);
           ("element", false, TLiteral "anyfunc") ]
       /\ forallb is_property
            (interface_members (S (S k)) "TableDescriptor" ns) = true)
    /\ count_occ string_dec (interface_names ns) "MemoryDescriptor" = 1
    /\ count_occ string_dec (interface_names ns) "TableDescriptor" = 1
    /\ interface_bases "MemoryDescriptor" ns = []
    /\ interface_bases "TableDescriptor" ns = ["MemoryDescriptor"]
    /\ fields (own_members "MemoryDescriptor" ns)
       = [ ("initial", false, TNumber); ("maximum", true, TNumber) ]
    /\ fields (own_members "TableDescriptor" ns)
       = [ ("element", false, TLiteral "anyfunc") ]
    /\ mem "MemoryDescriptor" (class_names ns) = false
    /\ mem "TableDescriptor" (class_names ns) = false
    /\ uses "MemoryDescriptor" ns = [ ConstructorParam "Memory" "memoryDescriptor" ]
    /\ uses "TableDescriptor" ns = [ ConstructorParam "Table" "tableDescriptor" ]
    /\ constructor_signatures "Memory" ns
       = [ [ req "memoryDescriptor" (TName "MemoryDescriptor") ] ]
    /\ constructor_signatures "Table" ns
       = [ [ req "tableDescriptor" (TName "TableDescriptor") ] ] in
  descriptors first_copy
  /\ descriptors second_copy
  /\ namespaces index_d_ts = [ first_copy; second_copy ].
Proof.
  cbv zeta. split; [ | split; [ | reflexivity ] ];
    repeat split; reflexivity.
Qed.

(** * C5: module metadata *)

(** C5. In the first copy and in the second, [ModuleExport] is declared and
    has exactly the string fields [name] and [kind]; [ModuleImport] extends
    [ModuleExport] and adds only the string field [module], so the metadata
    fields are [name], [kind] and [module]; and the static method
    [Module.customSections] takes a module and a section name and returns
    [ArrayBuffer[]]. *)
Theorem C5_module_metadata :
  let metadata (ns : Namespace) :=
    count_occ string_dec (interface_names ns) "ModuleExport" = 1
    /\ count_occ string_dec (interface_names ns) "ModuleImport" = 1
    /\ fields (own_members "ModuleExport" ns)
       = [ ("name", false, TString); ("kind", false, TString) ]
    /\ interface_bases "ModuleExport" ns = []
    /\ interface_bases "ModuleImport" ns = ["ModuleExport"]
    /\ fields (own_members "ModuleImport" ns) = [ ("module", false, TString) ]
    /\ forallb is_property (own_members "ModuleExport" ns) = true
    /\ forallb is_property (own_members "ModuleImport" ns) = true
    /\ (forall k,
        fields (interface_members (S (S k)) "ModuleImport" ns)
        = [ ("name", false, TString); ("kind", false, TString);
            ("module", false, TString) ])
    /\ method_signatures "Module" "customSections" ns
       = [ (true,
            [ req "module" (TName "Module"); req "sectionName" TString ],
            TArray ArrayBuffer) ] in
  metadata first_copy
  /\ metadata second_copy
  /\ namespaces index_d_ts = [ first_copy; second_copy ].
Proof.
  cbv zeta. split; [ | split; [ | reflexivity ] ];
    repeat split; reflexivity.
Qed.

(** * C6: the asynchronous functions *)

(** C6. Each of [compile], [instantiate], [compileStreaming] and
    [instantiateStreaming] is declared in the file, and every signature
    declared for any of them, in either copy, returns a [Promise<...>];
    [instantiate] has two overloads in each copy. *)
Theorem C6_async_functions_return_promises :
  Forall (fun n =>
    1 <= length (file_signatures n index_d_ts)
    /\ Forall (fun sig => is_promise (snd sig) = true)
              (file_signatures n index_d_ts))
    async_functions
  /\ Forall (fun ns => length (function_signatures "instantiate" ns) = 2)
            (namespaces index_d_ts)
  /\ map snd (file_signatures "instantiate" index_d_ts)
     = [ TPromise (TName "ResultObject"); TPromise (TName "Instance");
         TPromise (TName "ResultObject"); TPromise (TName "Instance") ].
Proof.
  split; [ | split; [ both_copies; reflexivity | reflexivity ] ].
  unfold async_functions.
  repeat (apply Forall_cons || apply Forall_nil);
    (split; [ vm_compute; lia | vm_compute; repeat constructor ]).
Qed.

(** * Values: more fuel never takes a type away *)

Lemma has_member_mono (check check' : TsType -> Value -> bool) props m :
  (forall t v, check t v = true -> check' t v = true) ->
  has_member check props m = true -> has_member check' props m = true.
Proof.
  intros Hsub. destruct m as [doc ro n o t init | doc ps body | doc st n ps r body];
    simpl; auto.
  destruct (get_field n props) as [x|]; auto.
  rewrite !orb_true_iff. intros [H | H]; auto.
Qed.

Lemma conforms_step_mono (check check' : TsType -> Value -> bool) ns t v :
  (forall t v, check t v = true -> check' t v = true) ->
  conforms_step check ns t v = true -> conforms_step check' ns t v = true.
Proof.
  intros Hsub. destruct t as [ | | | | | | s | n args | e | alts | ps r ];
    simpl; auto.
  - destruct (lookup_alias n ns) as [body|]; auto.
    destruct (lookup_interface n ns) as [[bases ms]|]; auto.
    destruct v; auto.
    rewrite !andb_true_iff, !forallb_forall. intros [Hb Hm]. split.
    + intros b Hin. auto.
    + intros m Hin. eapply has_member_mono; eauto.
  - destruct v; auto. rewrite !forallb_forall. auto.
  - rewrite !existsb_exists. intros (a & Hin & H). eauto.
Qed.

Lemma conforms_S fuel ns t v :
  conforms fuel ns t v = true -> conforms (S fuel) ns t v = true.
Proof.
  revert t v. induction fuel as [|f IH]; intros t v H; [ discriminate | ].
  cbn [conforms] in H. change (conforms_step (conforms (S f) ns) ns t v = true).
  eapply conforms_step_mono; eauto.
Qed.

(** A value that has a type within some depth has it within any greater
    one. *)
Lemma conforms_mono fuel fuel' ns t v :
  fuel <= fuel' ->
  conforms fuel ns t v = true -> conforms fuel' ns t v = true.
Proof.
  induction 1 as [|m Hle IH]; auto using conforms_S.
Qed.

(** * C7: the element kind of a table *)

Lemma conforms_interface_members f ns n args v bases ms :
  lookup_alias n ns = None ->
  lookup_interface n ns = Some (bases, ms) ->
  conforms (S f) ns (TRef n args) v = true ->
  exists props,
    v = VObject props /\ forallb (has_member (conforms f ns) props) ms = true.
Proof.
  intros Halias Hiface H. cbn [conforms conforms_step] in H.
  rewrite Halias, Hiface in H.
  destruct v; try discriminate.
  apply andb_true_iff in H as [_ H]. eauto.
Qed.

Lemma has_required_literal f ns props doc ro n s init :
  has_member (conforms f ns) props (MProperty doc ro n false (TLiteral s) init)
  = true ->
  get_field n props = Some (VString s).
Proof.
  unfold has_member. destruct (get_field n props) as [x|]; [ | discriminate ].
  rewrite andb_false_l, orb_false_r.
  destruct f as [|f]; [ discriminate | ]. cbn [conforms conforms_step].
  destruct x; try discriminate.
  intros H. apply String.eqb_eq in H. now subst.
Qed.

(** C7. In both copies the declared type of [TableDescriptor.element] is
    the literal type ["anyfunc"], and so the [element] field of every value
    of type [TableDescriptor] is the string ["anyfunc"]. *)
Theorem C7_element_is_anyfunc (ns : Namespace) (fuel : nat) (v : Value) :
  In ns (namespaces index_d_ts) ->
  conforms fuel ns (TName "TableDescriptor") v = true ->
  fields (own_members "TableDescriptor" ns)
  = [ ("element", false, TLiteral "anyfunc") ]
  /\ field "element" v = Some (VString "anyfunc").
Proof.
  intros Hin H. rewrite namespaces_index_d_ts in Hin.
  destruct Hin as [<- | [<- | []]]; (split; [ reflexivity | ]);
    (destruct fuel as [|f]; [ discriminate | ]);
    (eapply conforms_interface_members in H; [ | reflexivity | reflexivity ]);
    destruct H as (props & -> & H);
    cbn [forallb] in H; rewrite andb_true_r in H;
    apply has_required_literal in H; exact H.
Qed.

(** C7 at a table descriptor of one initial element, in the first copy. *)
Lemma C7_element_is_anyfunc_witness :
  In first_copy (namespaces index_d_ts)
  /\ conforms 3 first_copy (TName "TableDescriptor") a_table_descriptor = true
  /\ fields (own_members "TableDescriptor" first_copy)
     = [ ("element", false, TLiteral "anyfunc") ]
  /\ field "element" a_table_descriptor = Some (VString "anyfunc").
Proof.
  assert (Hin : In first_copy (namespaces index_d_ts)) by (left; reflexivity).
  assert (Hc : conforms 3 first_copy (TName "TableDescriptor")
                 a_table_descriptor = true) by reflexivity.
  split; [ exact Hin | split; [ exact Hc | ] ].
  exact (C7_element_is_anyfunc first_copy 3 a_table_descriptor Hin Hc).
Defined.

(** A value whose [element] is another string is not a table descriptor. *)
Example funcref_is_not_an_element_kind :
  conforms 9 first_copy (TName "TableDescriptor")
    (VObject [ ("initial", VNumber 2%float); ("element", VString "funcref") ])
  = false.
Proof. reflexivity. Qed.

(** * C8: validate *)

(** C8. Each copy declares one function [validate]; it takes one required
    parameter [bufferSource] (a [BufferSource] in the first copy, an
    [ArrayBuffer | Uint8Array] in the second) and returns [boolean], which
    is not a [Promise]; its doc comment, in the first copy, says the result
    tells whether compiling the module would throw a [CompileError], a class
    both copies declare. *)
Theorem C8_validate_is_synchronous :
  function_signatures "validate" first_copy
  = [ ([ req "bufferSource" BufferSource ], TBoolean) ]
  /\ function_signatures "validate" second_copy
     = [ ([ req "bufferSource" (TUnion [ ArrayBuffer; Uint8Array ]) ],
          TBoolean) ]
  /\ is_promise TBoolean = false
  /\ function_docs "validate" first_copy
     = [ [ "Checks whether binary code specifies a valid WebAssembly module";
           "@returns Whether compiling the module would throw a `CompileError`" ] ]
  /\ Forall (fun ns =>
       count_occ string_dec (function_names ns) "validate" = 1
       /\ mem "CompileError" (class_names ns) = true)
     (namespaces index_d_ts).
Proof.
  repeat split; try reflexivity.
  both_copies; split; reflexivity.
Qed.

(** * C1: the two copies *)

Lemma same_shape_eq d d' : same_shape d d' = true <-> shape d = shape d'.
Proof.
  unfold same_shape. destruct (Decl_eq_dec (shape d) (shape d')); split;
    congruence.
Qed.

Lemma declared_in_spec d ns :
  declared_in d ns = true
  <-> exists d', In d' (ns_decls ns) /\ shape d = shape d'.
Proof.
  unfold declared_in. rewrite existsb_exists.
  split; intros (d' & Hin & H); exists d'; split; auto;
    now apply same_shape_eq.
Qed.

(** [copies_agree] decides [Agree]. *)
Lemma copies_agree_spec a b : copies_agree a b = true <-> Agree a b.
Proof.
  unfold copies_agree, Agree.
  rewrite andb_true_iff, !forallb_forall.
  split; intros [Hab Hba]; split; intros d Hd;
    apply declared_in_spec; auto.
Qed.

(** C1, as stated, fails: the two copies do not agree.  The first declares
    [compileStreaming], which the second does not have. *)
Lemma C1_copies_disagree :
  declared_in
    (DFunction [] "compileStreaming"
       [ req "source" (TUnion [ Response; TPromise Response ]) ]
       (TPromise (TName "Module")) None)
    first_copy = true
  /\ declared_in
       (DFunction [] "compileStreaming"
          [ req "source" (TUnion [ Response; TPromise Response ]) ]
          (TPromise (TName "Module")) None)
       second_copy = false
  /\ ~ Agree first_copy second_copy.
Proof.
  split; [ vm_compute; reflexivity | split; [ vm_compute; reflexivity | ] ].
  intros H. apply copies_agree_spec in H. vm_compute in H. discriminate.
Qed.

(** C1, amended.  Doc comments aside, the second copy is the first one
    without [compileStreaming] and [instantiateStreaming], with
    [ArrayBuffer | Uint8Array] written for [BufferSource] and with
    [AnyFunc] without [null]: the same names in the same order.  Twelve
    declarations have the same shape in both copies; those that differ are
    [Module] (its constructor), [AnyFunc], [compile], the first overload of
    [instantiate] and [validate]. *)
Theorem C1_copies_agree_up_to_spelling :
  shapes second_copy
  = map legacy_decl (filter (fun d => negb (is_streaming d)) (shapes first_copy))
  /\ declared_names second_copy
     = filter (fun n => negb (mem n streaming_functions))
              (declared_names first_copy)
  /\ map decl_name (also_in first_copy second_copy)
     = map Some
         [ "ModuleExport"; "ModuleImport"; "Instance"; "MemoryDescriptor";
           "Memory"; "TableDescriptor"; "Table"; "CompileError"; "LinkError";
           "RuntimeError"; "ResultObject"; "instantiate" ]
  /\ map shape (also_in first_copy second_copy)
     = map shape (also_in second_copy first_copy)
  /\ map decl_name (only_in first_copy second_copy)
     = map Some
         [ "Module"; "AnyFunc"; "compile"; "compileStreaming"; "instantiate";
           "instantiateStreaming"; "validate" ]
  /\ map shape (only_in second_copy first_copy)
     = [ DClass [] "Module" None
           [ MConstructor []
               [ req "bufferSource" (TUnion [ ArrayBuffer; Uint8Array ]) ] None;
             MMethod [] true "customSections"
               [ req "module" (TName "Module"); req "sectionName" TString ]
               (TArray ArrayBuffer) None;
             MMethod [] true "exports" [ req "module" (TName "Module") ]
               (TArray (TName "ModuleExport")) None;
             MMethod [] true "imports" [ req "module" (TName "Module") ]
               (TArray (TName "ModuleImport")) None ];
         DTypeAlias [] "AnyFunc" (TFunction [ req "args" (TArray TAny) ] TAny);
         DFunction [] "compile"
           [ req "bufferSource" (TUnion [ ArrayBuffer; Uint8Array ]) ]
           (TPromise (TName "Module")) None;
         DFunction [] "instantiate"
           [ req "bufferSource" (TUnion [ ArrayBuffer; Uint8Array ]);
             opt "importObject" TAny ]
           (TPromise (TName "ResultObject")) None;
         DFunction [] "validate"
           [ req "bufferSource" (TUnion [ ArrayBuffer; Uint8Array ]) ]
           TBoolean None ].
Proof.
  split; [ vm_compute; reflexivity | ].
  split; [ vm_compute; reflexivity | ].
  split; [ vm_compute; reflexivity | ].
  split; [ vm_compute; reflexivity | ].
  split; vm_compute; reflexivity.
Qed.

(** * C9: what the file says of [grow] *)

(** Both copies declare [Memory.grow] and [Table.grow] as taking a number
    and returning a number; what number is returned is said by the doc
    comments of the first copy only. *)
Lemma grow_declarations :
  Forall (fun ns =>
    method_signatures "Memory" "grow" ns
    = [ (false, [ req "numPages" TNumber ], TNumber) ]
    /\ method_signatures "Table" "grow" ns
       = [ (false, [ req "numElements" TNumber ], TNumber) ])
    (namespaces index_d_ts)
  /\ method_docs "Memory" "grow" first_copy
     = [ [ "Increases the allocated memory";
           "@param numPages The (nonnegative) number of pages to add";
           "@returns The previous number of allocated pages" ] ]
  /\ method_docs "Table" "grow" first_copy
     = [ [ "Increases the table length";
           "@param numElements The (nonnegative) number of elements to add";
           "@returns The previous table length" ] ]
  /\ method_docs "Memory" "grow" second_copy = [ [] ]
  /\ method_docs "Table" "grow" second_copy = [ [] ].
Proof.
  split; [ both_copies; split; reflexivity | repeat split; reflexivity ].
Qed.

(** * C10: null as the unset slot *)

(** What the first copy says of an unset slot in words: the doc comment of
    [AnyFunc] (line 128) and that of the constructor of [Table] (line 145).
    What a new table holds is for the host to do; the file has these two
    sentences on it and no code. *)
Lemma table_slot_documentation :
  In "`null` if unset." (concat (alias_docs "AnyFunc" first_copy))
  /\ In "All elements are initially `null`."
        (concat (constructor_docs "Table" first_copy)).
Proof. split; vm_compute; tauto. Qed.


(** * The constructors and the functions that do their work *)

(** In each copy, [compile] and [validate] take exactly the parameter of
    the constructor of [Module], and the second overload of [instantiate]
    exactly the parameters of the constructor of [Instance]; the first
    overload takes the former and the optional [importObject] of the
    latter.  What the constructors make, the functions promise: a
    [Module], an [Instance], or a [ResultObject], whose two fields are a
    [Module] and an [Instance]. *)
Theorem functions_take_the_constructors_parameters :
  Forall (fun ns =>
    exists buffer,
      constructor_signatures "Module" ns = [ [ buffer ] ]
      /\ function_signatures "compile" ns
         = [ ([ buffer ], TPromise (TName "Module")) ]
      /\ function_signatures "validate" ns = [ ([ buffer ], TBoolean) ]
      /\ constructor_signatures "Instance" ns
         = [ [ req "module" (TName "Module"); opt "importObject" TAny ] ]
      /\ function_signatures "instantiate" ns
         = [ ([ buffer; opt "importObject" TAny ],
              TPromise (TName "ResultObject"));
             ([ req "module" (TName "Module"); opt "importObject" TAny ],
              TPromise (TName "Instance")) ]
      /\ fields (own_members "ResultObject" ns)
         = [ ("module", false, TName "Module");
             ("instance", false, TName "Instance") ]
      /\ interface_bases "ResultObject" ns = [])
    (namespaces index_d_ts).
Proof.
  both_copies; eexists; repeat (split; [ reflexivity | ]); reflexivity.
Qed.

(** The streaming functions of the first copy are [compile] and the first
    overload of [instantiate] with a [source] in place of the buffer: the
    other parameters and the return types are the same.  They are the only
    places where [Response] is written, and the second copy has neither. *)
Theorem streaming_functions_mirror_the_buffer_ones :
  let source := req "source" (TUnion [ Response; TPromise Response ]) in
  let streamed (sig : list Param * TsType) := (source :: tl (fst sig), snd sig) in
  function_signatures "compileStreaming" first_copy
  = map streamed (function_signatures "compile" first_copy)
  /\ function_signatures "instantiateStreaming" first_copy
     = map streamed (firstn 1 (function_signatures "instantiate" first_copy))
  /\ uses "Response" first_copy
     = [ FunctionParam "compileStreaming" "source";
         FunctionParam "instantiateStreaming" "source" ]
  /\ function_signatures "compileStreaming" second_copy = []
  /\ function_signatures "instantiateStreaming" second_copy = []
  /\ uses "Response" second_copy = [].
Proof.
  cbv zeta. repeat (split; [ reflexivity | ]); reflexivity.
Qed.

(** * What the namespaces need from outside *)

(** Every name a copy refers to, in a type or after [extends], is declared
    by that copy or is one of a few global types: [BufferSource],
    [ArrayBuffer], [Error], [Promise] and [Response] for the first copy,
    [ArrayBuffer], [Uint8Array], [Error] and [Promise] for the second; each
    of these is referred to.  The buffer type is written at the same four
    places in both: [BufferSource] in the first copy where the second has
    [Uint8Array]. *)
Theorem names_referred_to :
  external_names first_copy
  = [ "BufferSource"; "ArrayBuffer"; "Error"; "Promise"; "Response" ]
  /\ external_names second_copy
     = [ "ArrayBuffer"; "Uint8Array"; "Error"; "Promise" ]
  /\ Forall (fun ns =>
       Forall (fun d =>
         Forall (fun n => mem n (declared_names ns) = true
                          \/ In n (external_names ns)) (decl_refs d))
         (ns_decls ns))
     (namespaces index_d_ts)
  /\ uses "BufferSource" first_copy
     = [ ConstructorParam "Module" "bufferSource";
         FunctionParam "compile" "bufferSource";
         FunctionParam "instantiate" "bufferSource";
         FunctionParam "validate" "bufferSource" ]
  /\ uses "Uint8Array" second_copy = uses "BufferSource" first_copy
  /\ uses "BufferSource" second_copy = []
  /\ uses "Uint8Array" first_copy = [].
Proof.
  split; [ reflexivity | ]. split; [ reflexivity | ].
  split; [ | repeat (split; [ reflexivity | ]); reflexivity ].
  both_copies; vm_compute;
    repeat (apply Forall_cons || apply Forall_nil); tauto.
Qed.

(** * Parameters *)

(** In every parameter list of the file (of a function, a method, a
    constructor or a function type) the names are distinct and no required
    parameter follows an optional one; more than that, the only optional
    parameter there is, is [importObject?: any], and it comes last. *)
Theorem parameter_lists_are_well_formed :
  Forall (fun ns =>
    Forall (fun ps =>
      distinct (map p_name ps) = true
      /\ required_first ps = true
      /\ optional_before_last ps = []
      /\ Forall (fun p => p = opt "importObject" TAny) (optional_params ps))
      (parameter_lists ns))
    (namespaces index_d_ts).
Proof.
  both_copies; vm_compute; repeat constructor.
Qed.

(** * Properties and methods *)

(** In each copy the properties of the classes are [Instance.exports: any],
    [Memory.buffer: ArrayBuffer] and [Table.length: number], all three
    readonly and required; no property of an interface is readonly. *)
Theorem class_properties_are_readonly :
  Forall (fun ns =>
    class_properties ns
    = [ ("Instance", "exports", true); ("Memory", "buffer", true);
        ("Table", "length", true) ]
    /\ fields (class_members "Instance" ns) = [ ("exports", false, TAny) ]
    /\ fields (class_members "Memory" ns) = [ ("buffer", false, ArrayBuffer) ]
    /\ fields (class_members "Table" ns) = [ ("length", false, TNumber) ]
    /\ forallb (fun p => negb (snd p)) (interface_properties ns) = true
    /\ length (interface_properties ns) = 8)
    (namespaces index_d_ts).
Proof.
  both_copies; repeat (split; [ reflexivity | ]); reflexivity.
Qed.

(** In each copy the static methods are the three of [Module]; each takes
    the module it reports on as its first parameter and returns an array:
    [exports] a [ModuleExport[]], [imports] a [ModuleImport[]].  The other
    methods are those of [Memory] and [Table]; no interface has a method,
    and [Module] and [Instance] have no instance method. *)
Theorem static_methods_are_those_of_Module :
  Forall (fun ns =>
    map owner_and_name (filter is_static (methods ns))
    = [ ("Module", "customSections"); ("Module", "exports");
        ("Module", "imports") ]
    /\ forallb lists_of_a_module (filter is_static (methods ns)) = true
    /\ method_signatures "Module" "exports" ns
       = [ (true, [ req "module" (TName "Module") ],
            TArray (TName "ModuleExport")) ]
    /\ method_signatures "Module" "imports" ns
       = [ (true, [ req "module" (TName "Module") ],
            TArray (TName "ModuleImport")) ]
    /\ map owner_and_name (filter (fun m => negb (is_static m)) (methods ns))
       = [ ("Memory", "grow"); ("Table", "get"); ("Table", "grow");
           ("Table", "set") ]
    /\ forallb (fun m => mem (fst (owner_and_name m)) (class_names ns))
               (methods ns) = true)
    (namespaces index_d_ts).
Proof.
  both_copies; repeat (split; [ reflexivity | ]); reflexivity.
Qed.

(** * Doc comments *)


(** * Where [any] is written *)

(** [any] is written in the type of [Instance.exports], of every
    [importObject] parameter and inside [AnyFunc], and nowhere else, in
    either copy. *)
Theorem where_any_is_written :
  any_sites first_copy
  = [ PropertyType "Instance" "exports";
      ConstructorParam "Instance" "importObject";
      AliasBody "AnyFunc";
      FunctionParam "instantiate" "importObject";
      FunctionParam "instantiate" "importObject";
      FunctionParam "instantiateStreaming" "importObject" ]
  /\ any_sites second_copy
     = [ PropertyType "Instance" "exports";
         ConstructorParam "Instance" "importObject";
         AliasBody "AnyFunc";
         FunctionParam "instantiate" "importObject";
         FunctionParam "instantiate" "importObject" ].
Proof.
  split; reflexivity.
Qed.

(** * Names *)

(** In the first copy and in the second, every declaration has a name and
    no two declarations share one, but for [instantiate]: it is declared
    twice, both times as a function, and its two declarations stand next to
    each other in the namespace, nothing between them. *)
Theorem declarations_do_not_collide :
  let overloads_only (ns : Namespace) :=
    exists before after,
      map decl_name (ns_decls ns)
      = map Some (before ++ "instantiate" :: "instantiate" :: after)%list
      /\ distinct (before ++ "instantiate" :: after)%list = true
      /\ count_occ string_dec (function_names ns) "instantiate" = 2 in
  overloads_only first_copy /\ overloads_only second_copy.
Proof.
  cbv zeta. split.
  - exists [ "ModuleExport"; "ModuleImport"; "Module"; "Instance";
             "MemoryDescriptor"; "Memory"; "TableDescriptor"; "AnyFunc";
             "Table"; "CompileError"; "LinkError"; "RuntimeError"; "compile";
             "compileStreaming"; "ResultObject" ],
           [ "instantiateStreaming"; "validate" ].
    split; [ reflexivity | split; reflexivity ].
  - exists [ "ModuleExport"; "ModuleImport"; "Module"; "Instance";
             "MemoryDescriptor"; "Memory"; "TableDescriptor"; "AnyFunc";
             "Table"; "CompileError"; "LinkError"; "RuntimeError"; "compile";
             "ResultObject" ],
           [ "validate" ].
    split; [ reflexivity | split; reflexivity ].
Qed.

(** * The values of the declared types *)

Lemma le_mono (P : nat -> bool) :
  (forall f, P f = true -> P (S f) = true) ->
  forall f f', f <= f' -> P f = true -> P f' = true.
Proof.
  intros Hstep f f' Hle. induction Hle; auto.
Qed.

(** Finitely many checks that each succeed within some depth succeed
    together within one depth. *)
Lemma common_fuel {A : Type} (P : nat -> A -> bool) (l : list A) :
  (forall f x, P f x = true -> P (S f) x = true) ->
  Forall (fun x => exists f, P f x = true) l ->
  exists f, forall f', f <= f' -> forallb (P f') l = true.
Proof.
  intros Hstep H. induction H as [|x l [fx Hx] _ [fl Hl]].
  - exists 0. reflexivity.
  - exists (Nat.max fx fl). intros f' Hle. cbn [forallb].
    apply andb_true_iff. split.
    + apply (le_mono (fun f => P f x) (fun f => Hstep f x) fx); [ lia | exact Hx ].
    + apply Hl. lia.
Qed.

Lemma has_member_S ns props m f :
  has_member (conforms f ns) props m = true ->
  has_member (conforms (S f) ns) props m = true.
Proof.
  apply has_member_mono. intros t v. apply conforms_S.
Qed.

Lemma has_type_number ns v : has_type ns TNumber v <-> is_number v.
Proof.
  split.
  - intros [[|f] H]; [ discriminate | ]. destruct v; try discriminate.
    eexists; reflexivity.
  - intros [x ->]. exists 1. reflexivity.
Qed.

Lemma has_type_string ns v : has_type ns TString v <-> is_string v.
Proof.
  split.
  - intros [[|f] H]; [ discriminate | ]. destruct v; try discriminate.
    eexists; reflexivity.
  - intros [s ->]. exists 1. reflexivity.
Qed.

Lemma has_type_literal ns s v : has_type ns (TLiteral s) v <-> v = VString s.
Proof.
  split.
  - intros [[|f] H]; [ discriminate | ]. destruct v; try discriminate.
    cbn in H. apply String.eqb_eq in H. now subst.
  - intros ->. exists 1. cbn. apply String.eqb_refl.
Qed.

Lemma has_type_null ns v : has_type ns TNull v <-> v = VNull.
Proof.
  split.
  - intros [[|f] H]; [ discriminate | ]. now destruct v.
  - intros ->. exists 1. reflexivity.
Qed.

(** A value has a union type when it has one of its alternatives. *)
Lemma has_type_union ns alts v :
  has_type ns (TUnion alts) v <-> Exists (fun a => has_type ns a v) alts.
Proof.
  split.
  - intros [[|f] H]; [ discriminate | ]. cbn [conforms conforms_step] in H.
    apply existsb_exists in H as (a & Hin & Ha).
    apply Exists_exists. exists a. split; [ exact Hin | now exists f ].
  - intros H. apply Exists_exists in H as (a & Hin & [f Ha]).
    exists (S f). cbn [conforms conforms_step].
    apply existsb_exists. eauto.
Qed.

(** A value has an array type when it is an array of values of the element
    type. *)
Lemma has_type_array ns e v :
  has_type ns (TArray e) v
  <-> exists items, v = VArray items /\ Forall (has_type ns e) items.
Proof.
  split.
  - intros [[|f] H]; [ discriminate | ]. cbn [conforms conforms_step] in H.
    destruct v; try discriminate. exists items. split; [ reflexivity | ].
    rewrite forallb_forall in H. apply Forall_forall.
    intros x Hin. exists f. auto.
  - intros (items & -> & H).
    destruct (common_fuel (fun f x => conforms f ns e x) items) as [f Hf].
    + intros f x. apply conforms_S.
    + exact H.
    + exists (S f). cbn [conforms conforms_step]. apply Hf. lia.
Qed.

(** A name that is a type alias stands for its body. *)
Lemma has_type_alias ns n args body v :
  lookup_alias n ns = Some body ->
  (has_type ns (TRef n args) v <-> has_type ns body v).
Proof.
  intros Halias. split.
  - intros [[|f] H]; [ discriminate | ]. cbn [conforms conforms_step] in H.
    rewrite Halias in H. now exists f.
  - intros [f H]. exists (S f). cbn [conforms conforms_step].
    now rewrite Halias.
Qed.

(** A value has an interface type when it is an object that has the types
    of the interfaces extended and every member declared. *)
Lemma has_type_interface ns n args bases ms v :
  lookup_alias n ns = None ->
  lookup_interface n ns = Some (bases, ms) ->
  (has_type ns (TRef n args) v
   <-> exists props,
         v = VObject props
         /\ Forall (fun b => has_type ns (TName b) v) bases
         /\ Forall (member_ok ns props) ms).
Proof.
  intros Halias Hiface. split.
  - intros [[|f] H]; [ discriminate | ]. cbn [conforms conforms_step] in H.
    rewrite Halias, Hiface in H. destruct v; try discriminate.
    apply andb_true_iff in H as [Hb Hm]. rewrite forallb_forall in Hb, Hm.
    exists props. split; [ reflexivity | ].
    split; apply Forall_forall; intros x Hin; exists f; auto.
  - intros (props & -> & Hb & Hm).
    destruct (common_fuel
                (fun f b => conforms f ns (TName b) (VObject props)) bases)
      as [fb Hfb]; [ intros f b; apply conforms_S | exact Hb | ].
    destruct (common_fuel (fun f m => has_member (conforms f ns) props m) ms)
      as [fm Hfm]; [ intros f m; apply has_member_S | exact Hm | ].
    exists (S (Nat.max fb fm)). cbn [conforms conforms_step].
    rewrite Halias, Hiface. apply andb_true_iff. split.
    + apply Hfb. lia.
    + apply Hfm. lia.
Qed.

(** An object has a declared property when the property is there with a
    value of its type; an optional one may also be undefined, or missing. *)
Lemma member_ok_property ns props doc ro n optional t init :
  member_ok ns props (MProperty doc ro n optional t init)
  <-> match get_field n props with
      | Some x => has_type ns t x \/ (optional = true /\ x = VUndefined)
      | None => optional = true
      end.
Proof.
  unfold member_ok, has_member.
  destruct (get_field n props) as [x|].
  - split.
    + intros [f H]. apply orb_true_iff in H as [H | H].
      * left. now exists f.
      * right. apply andb_true_iff in H as [Ho Hx]. split; [ exact Ho | ].
        now destruct x.
    + intros [[f H] | [-> ->]].
      * exists f. now rewrite H.
      * exists 0. reflexivity.
  - split; [ intros [_ H]; exact H | intros H; now exists 0 ].
Qed.

(** What extends an interface has its type: the general fact behind
    [TableDescriptor] and [ModuleImport]. *)
Lemma has_type_base ns n args bases ms b v :
  lookup_alias n ns = None ->
  lookup_interface n ns = Some (bases, ms) ->
  In b bases ->
  has_type ns (TRef n args) v -> has_type ns (TName b) v.
Proof.
  intros Halias Hiface Hin H.
  apply (has_type_interface ns n args bases ms v Halias Hiface) in H
    as (props & _ & Hb & _).
  rewrite Forall_forall in Hb. auto.
Qed.

(** The values of type [MemoryDescriptor], in either copy, are the objects
    whose [initial] is a number and whose [maximum] is a number, undefined
    or missing. *)
Theorem MemoryDescriptor_values :
  Forall (fun ns => forall v,
    has_type ns (TName "MemoryDescriptor") v
    <-> exists props,
          v = VObject props
          /\ (exists x, get_field "initial" props = Some (VNumber x))
          /\ (get_field "maximum" props = None
              \/ get_field "maximum" props = Some VUndefined
              \/ exists x, get_field "maximum" props = Some (VNumber x)))
    (namespaces index_d_ts).
Proof.
  both_copies; intros v;
    (etransitivity;
     [ apply has_type_interface with (bases := []); reflexivity | ]);
    (split; intros (props & -> & H); exists props; (split; [ reflexivity | ])).
  all: cbn [own_members] in *.
  1, 3: destruct H as [_ H]; inversion_clear H as [|? ? Hi H'];
        inversion_clear H' as [|? ? Hm _];
        apply member_ok_property in Hi, Hm;
        destruct (get_field "initial" props) as [i|]; [ | discriminate ];
        destruct Hi as [Hi | [? _]]; [ | discriminate ];
        apply has_type_number in Hi as [x ->];
        (split; [ now exists x | ]);
        destruct (get_field "maximum" props) as [m|]; [ | now left ];
        destruct Hm as [Hm | [_ ->]]; [ | now right; left ];
        apply has_type_number in Hm as [y ->]; right; right; now exists y.
  all: destruct H as [[x Hi] Hm]; (split; [ constructor | ]);
       repeat apply Forall_cons; try apply Forall_nil;
       apply member_ok_property.
  1, 3: rewrite Hi; left; apply has_type_number; now exists x.
  all: destruct Hm as [-> | [-> | [y ->]]];
       [ reflexivity | right; now split
       | left; apply has_type_number; now exists y ].
Qed.

Lemma member_ok_required ns props doc ro n t init :
  member_ok ns props (MProperty doc ro n false t init)
  <-> exists x, get_field n props = Some x /\ has_type ns t x.
Proof.
  rewrite member_ok_property. destruct (get_field n props) as [x|].
  - split.
    + intros [H | [H _]]; [ eauto | discriminate ].
    + intros (y & [= <-] & H). now left.
  - split; [ discriminate | intros (y & H & _); discriminate ].
Qed.

(** The values of type [TableDescriptor], in either copy, are the values of
    type [MemoryDescriptor] whose [element] is the string ["anyfunc"]. *)
Theorem TableDescriptor_values :
  Forall (fun ns => forall v,
    has_type ns (TName "TableDescriptor") v
    <-> has_type ns (TName "MemoryDescriptor") v
        /\ field "element" v = Some (VString "anyfunc"))
    (namespaces index_d_ts).
Proof.
  both_copies; intros v;
    (etransitivity;
     [ apply has_type_interface with (bases := ["MemoryDescriptor"]);
       reflexivity | ]);
    split.
  1, 3: intros (props & -> & Hb & Hm);
        inversion_clear Hb as [|? ? Hbase _];
        inversion_clear Hm as [|? ? He _];
        apply member_ok_required in He as (x & He & Hx);
        apply has_type_literal in Hx as ->; now split.
  all: intros [Hbase He]; destruct v; try discriminate;
       exists props; split; [ reflexivity | ];
       split; [ now repeat constructor | ];
       repeat constructor; apply member_ok_required;
       exists (VString "anyfunc"); split; [ exact He | ];
       now apply has_type_literal.
Qed.

(** The values of type [ModuleExport], in either copy, are the objects
    whose [name] and [kind] are strings; those of type [ModuleImport] are
    the values of type [ModuleExport] whose [module] is a string. *)
Theorem ModuleExport_and_ModuleImport_values :
  Forall (fun ns =>
    (forall v,
       has_type ns (TName "ModuleExport") v
       <-> exists props n k,
             v = VObject props
             /\ get_field "name" props = Some (VString n)
             /\ get_field "kind" props = Some (VString k))
    /\ (forall v,
       has_type ns (TName "ModuleImport") v
       <-> has_type ns (TName "ModuleExport") v
           /\ exists m, field "module" v = Some (VString m)))
    (namespaces index_d_ts).
Proof.
  both_copies; split; intros v.
  1, 3: (etransitivity;
         [ apply has_type_interface with (bases := []); reflexivity | ]);
        split;
        [ intros (props & -> & _ & Hm);
          inversion_clear Hm as [|? ? Hn Hm'];
          inversion_clear Hm' as [|? ? Hk _];
          apply member_ok_required in Hn as (x & Hn & [n ->]%has_type_string);
          apply member_ok_required in Hk as (y & Hk & [k ->]%has_type_string);
          now exists props, n, k
        | intros (props & n & k & -> & Hn & Hk);
          exists props; split; [ reflexivity | ]; split; [ constructor | ];
          repeat constructor; apply member_ok_required;
          [ exists (VString n) | exists (VString k) ];
          (split; [ assumption | apply has_type_string; eexists; reflexivity ]) ].
  all: (etransitivity;
        [ apply has_type_interface with (bases := ["ModuleExport"]);
          reflexivity | ]);
       split;
       [ intros (props & -> & Hb & Hm);
         inversion_clear Hb as [|? ? Hbase _];
         inversion_clear Hm as [|? ? Hmod _];
         apply member_ok_required in Hmod as (x & Hmod & [m ->]%has_type_string);
         split; [ exact Hbase | now exists m ]
       | intros [Hbase [m Hmod]]; destruct v; try discriminate;
         exists props; split; [ reflexivity | ];
         split; [ now repeat constructor | ];
         repeat constructor; apply member_ok_required;
         exists (VString m);
         split; [ exact Hmod | apply has_type_string; eexists; reflexivity ] ].
Qed.

(** Every value of the type [Module.imports] returns is a value of the type
    [Module.exports] returns: a list of imports can be read as a list of
    exports. *)
Theorem imports_can_be_read_as_exports (ns : Namespace) (v : Value) :
  In ns (namespaces index_d_ts) ->
  Forall (fun sig => has_type ns (snd sig) v)
         (method_signatures "Module" "imports" ns) ->
  Forall (fun sig => has_type ns (snd sig) v)
         (method_signatures "Module" "exports" ns).
Proof.
  intros Hin H.
  assert (Hbase : forall x, has_type ns (TName "ModuleImport") x ->
                            has_type ns (TName "ModuleExport") x).
  { intros x. change (namespaces index_d_ts) with [first_copy; second_copy] in Hin.
    destruct Hin as [<- | [<- | []]];
      eapply has_type_base; try reflexivity; now left. }
  assert (Hsig : method_signatures "Module" "imports" ns
                 = [ (true, [ req "module" (TName "Module") ],
                      TArray (TName "ModuleImport")) ]
                 /\ method_signatures "Module" "exports" ns
                    = [ (true, [ req "module" (TName "Module") ],
                         TArray (TName "ModuleExport")) ]).
  { change (namespaces index_d_ts) with [first_copy; second_copy] in Hin.
    destruct Hin as [<- | [<- | []]]; split; reflexivity. }
  destruct Hsig as [Hi He]. rewrite Hi in H. rewrite He.
  inversion_clear H as [|? ? Harr _]. constructor; [ | constructor ].
  cbn [snd] in *. apply has_type_array in Harr as (items & -> & Hitems).
  apply has_type_array. exists items. split; [ reflexivity | ].
  eapply Forall_impl; [ | exact Hitems ]. exact Hbase.
Qed.

(** A list of one import, as [Module.imports] of the first copy may
    return it. *)
Lemma imports_can_be_read_as_exports_witness :
  In first_copy (namespaces index_d_ts)
  /\ Forall (fun sig => has_type first_copy (snd sig) (VArray [an_import]))
            (method_signatures "Module" "imports" first_copy)
  /\ Forall (fun sig => has_type first_copy (snd sig) (VArray [an_import]))
            (method_signatures "Module" "exports" first_copy).
Proof.
  assert (Hin : In first_copy (namespaces index_d_ts)) by (left; reflexivity).
  assert (H : Forall (fun sig => has_type first_copy (snd sig) (VArray [an_import]))
                     (method_signatures "Module" "imports" first_copy)).
  { constructor; [ exists 5; reflexivity | constructor ]. }
  split; [ exact Hin | split; [ exact H | ] ].
  exact (imports_can_be_read_as_exports first_copy (VArray [an_import]) Hin H).
Defined.
